(** * libgit2 content readers (src/reader.c)

    A shallow embedding of the three content readers of [src/reader.c]
    (tree, working directory, index), of their constructors and of the
    generic dispatch [git_reader_read] / [git_reader_free], followed by
    the properties of the readers' contract.

    The functions of [reader.c] are translated statement by statement.
    The functions they call live in other files of the library (tree.c,
    blob.c, index.c, filter.c, odb.c, buffer.c, repository.c); they are
    gathered in the record [collaborators], one field per function, so
    that every theorem holds whatever those functions answer. *)

From Stdlib Require Import ZArith List String Bool Lia.
From Stdlib Require Import Strings.Byte.
Import ListNotations.

Local Open Scope Z_scope.
Local Open Scope string_scope.
Local Open Scope list_scope.

(** ** Data *)

(** C [int]: return codes are only tested against zero and copied. *)
Definition int : Type := Z.

(** Modelled from the spec: the error codes are declared in headers that
    are not part of [src/] ([git2/errors.h], [reader.h]).  The error
    taxonomy lists NotFound and Mismatch as two distinct kinds; the
    numbers are the ones of the library's headers. *)
Definition GIT_ENOTFOUND : int := -3.
Definition GIT_READER_MISMATCH : int := 1.

(** Modelled from the spec: a content identity is a fixed-width hash
    value, and two identities are equal iff their bytes match
    ([git_oid] is declared in [git2/oid.h]). *)
Definition git_oid : Type := list byte.

Definition git_oid_equal (a b : git_oid) : bool :=
  if list_eq_dec Byte.byte_eq_dec a b then true else false.

(** [git_oid_cpy (out, src)] through a possibly null [out]: [None] is the
    null pointer, [Some v] a location that currently holds [v]. *)
Definition out_id_cpy (out_id : option git_oid) (src : git_oid)
  : option git_oid :=
  match out_id with
  | Some _ => Some src      (* if (out_id) git_oid_cpy(out_id, src); *)
  | None => None
  end.

(** Handles to the objects a reader borrows.  The reader only passes
    them on to the collaborators. *)
Definition git_tree : Type := nat.
Definition git_repository : Type := nat.
Definition git_index : Type := nat.
Definition git_filter_list : Type := nat.

(** Modelled from the spec: a tree entry carries the stored identity of
    its content ([git_tree_entry_id]); a blob carries its raw bytes
    ([git_blob_rawcontent], [git_blob_rawsize] is their length); a
    staging entry carries its path and its stored identity (the field
    [id] read by [reader.c]; the module keeps the field names apart
    from the local variables [path] and [id] of the readers). *)
Record git_tree_entry : Type := { git_tree_entry_id : git_oid }.
Record git_blob : Type := { git_blob_rawcontent : list byte }.

Module git_index_entry.
Record t : Type := { path : string; id : git_oid }.
End git_index_entry.

Inductive git_otype : Type :=
| GIT_OBJ_COMMIT | GIT_OBJ_TREE | GIT_OBJ_BLOB | GIT_OBJ_TAG.

(** Modelled from the spec: [git_buf] (buffer.h) is either a byte
    sequence ([ptr], [size]) or the distinguished out-of-memory buffer
    ([ptr == git_buf__oom]) that buffer growth leaves behind when an
    allocation fails. *)
Inductive git_buf : Type :=
| Buf (data : list byte)
| BufOom.

Definition GIT_BUF_INIT : git_buf := Buf [].

(** The bytes [ptr[0 .. size)] a caller observes in a buffer. *)
Definition git_buf_bytes (b : git_buf) : list byte :=
  match b with
  | Buf data => data
  | BufOom => []
  end.

Definition git_buf_oom (b : git_buf) : bool :=
  match b with
  | Buf _ => false
  | BufOom => true
  end.

Definition git_buf_clear (b : git_buf) : git_buf :=
  match b with
  | Buf _ => Buf []
  | BufOom => BufOom
  end.

(** A C pointer as [reader.c] hands it to a release function. *)
Inductive pointer (A : Type) : Type :=
| NULL
| Uninitialized
| Ref (v : A).
Arguments NULL {A}.
Arguments Uninitialized {A}.
Arguments Ref {A} v.

(** Modelled from the spec: a collaborator either succeeds, returning 0
    with its output set, or fails, returning a negative code and leaving
    its output unset.  [Err c] is the return value [- c]. *)
Inductive result (A : Type) : Type :=
| Ok (v : A)
| Err (code : positive).
Arguments Ok {A} v.
Arguments Err {A} code.

Definition errno (code : positive) : int := Z.neg code.

(** ** The readers *)

Record tree_reader : Type := { tree : git_tree }.

Record workdir_reader : Type :=
  { workdir_repo : git_repository;
    workdir_index : option git_index }.

Record index_reader : Type :=
  { index_repo : git_repository;
    index_index : git_index }.

(** [git_reader] with its two function pointers is the common head of
    the three structures; the constructors fix the pointers once, so a
    reader is one of three variants and a call through [reader->read] or
    [reader->free] is a case analysis. *)
Inductive git_reader : Type :=
| TreeReader (reader : tree_reader)
| WorkdirReader (reader : workdir_reader)
| IndexReader (reader : index_reader).

Inductive reader_struct : Type :=
| sizeof_tree_reader | sizeof_workdir_reader | sizeof_index_reader.

(** ** Collaborators *)

(** The functions of the library that [reader.c] calls.  The buffer
    passed to [git_filter_list_apply_to_file] comes back in whatever
    state the filter pipeline left it, on success and on failure. *)
Record collaborators : Type :=
  { git_tree_entry_bypath : git_tree -> string -> result git_tree_entry;
    git_tree_owner : git_tree -> git_repository;
    git_blob_lookup : git_repository -> git_oid -> result git_blob;
    git_buf_try_grow : git_buf -> nat -> bool;
    git_repository_workdir : git_repository -> string;
    git_buf_joinpath : string -> string -> result string;
    git_filter_list_load :
      git_repository -> string -> result (option git_filter_list);
    git_filter_list_apply_to_file :
      git_buf -> option git_filter_list -> git_repository -> string ->
      result unit * git_buf;
    git_odb_hash : list byte -> git_otype -> result git_oid;
    git_index_get_bypath :
      git_index -> string -> int -> option git_index_entry.t;
    git_repository_index__weakptr : git_repository -> result git_index;
    git__calloc : reader_struct -> bool }.

(** Modelled from the spec: [git_buf_put] and [git_buf_set] (buffer.c)
    grow the buffer and copy the bytes in; when the growth fails the
    buffer becomes the out-of-memory buffer, and it stays so. *)
Definition git_buf_put (W : collaborators) (b : git_buf) (data : list byte)
  : git_buf :=
  match b with
  | BufOom => BufOom
  | Buf old =>
      if git_buf_try_grow W b (List.length old + List.length data + 1)
      then Buf (old ++ data)
      else BufOom
  end.

Definition git_buf_set (W : collaborators) (b : git_buf) (data : list byte)
  : int * git_buf :=
  match data with
  | [] => (0, git_buf_clear b)
  | _ :: _ =>
      match b with
      | BufOom => (-1, BufOom)
      | Buf _ =>
          if git_buf_try_grow W b (List.length data + 1)
          then (0, Buf data)
          else (-1, BufOom)
      end
  end.

(** Modelled from the spec: [git_blob__getbuf] (blob.c) copies the raw
    bytes of the blob to the buffer. *)
Definition git_blob__getbuf (W : collaborators) (out : git_buf)
    (blob : git_blob) : int * git_buf :=
  git_buf_set W out (git_blob_rawcontent blob).

(** ** Calls *)

(** The calls a reader makes, in the order it makes them. *)
Inductive call : Type :=
| call_git_tree_entry_bypath (t : git_tree) (filename : string)
| call_git_blob_lookup (repo : git_repository) (oid : git_oid)
| call_git_blob_free (blob : pointer git_blob)
| call_git_tree_entry_free (entry : pointer git_tree_entry)
| call_git_buf_joinpath (a b : string)
| call_git_filter_list_load (repo : git_repository) (filename : string)
| call_git_filter_list_apply_to_file
    (filters : option git_filter_list) (repo : git_repository)
    (abspath : string)
| call_git_odb_hash (data : list byte) (type : git_otype)
| call_git_index_get_bypath (index : git_index) (filename : string)
    (stage : int)
| call_git_filter_list_free (filters : option git_filter_list)
| call_git_buf_dispose (buf : option string)
| call_git_blob__getbuf (blob : git_blob)
| call_git_repository_index__weakptr (repo : git_repository)
| call_git__calloc (what : reader_struct)
| call_git__free (reader : git_reader)
| call_git__free_unfinished (what : reader_struct)
| call_tree_reader_free (reader : tree_reader)
| call_workdir_reader_free (reader : workdir_reader)
| call_index_reader_free (reader : index_reader).

(** A computation that returns a value and the calls it made. *)
Definition io (A : Type) : Type := (A * list call)%type.

Definition ret {A : Type} (a : A) : io A := (a, []).

Definition bind {A B : Type} (m : io A) (k : A -> io B) : io B :=
  let (a, t1) := m in
  let (b, t2) := k a in
  (b, t1 ++ t2).

Definition calling {A : Type} (c : call) (a : A) : io A := (a, [c]).

Definition value {A : Type} (m : io A) : A := fst m.
Definition calls {A : Type} (m : io A) : list call := snd m.

Declare Scope io_scope.
Delimit Scope io_scope with io.
Notation "x <- m ;; k" := (bind m (fun x => k))
  (at level 100, m at next level, right associativity) : io_scope.
Notation "m ;; k" := (bind m (fun _ => k))
  (at level 100, right associativity) : io_scope.
Local Open Scope io_scope.

(** What a [read] leaves behind: the return code, the content buffer
    and the identity location. *)
Definition read_result : Type := (int * git_buf * option git_oid)%type.

Definition read_error (r : read_result) : int := fst (fst r).
Definition read_out (r : read_result) : git_buf := snd (fst r).
Definition read_out_id (r : read_result) : option git_oid := snd r.

(** ** Tree reader *)

Section TreeReader.
Variable W : collaborators.

(** The label [done] of [tree_reader_read]. *)
Definition tree_reader_done (error : int) (out : git_buf)
    (out_id : option git_oid) (blob : pointer git_blob)
    (tree_entry : pointer git_tree_entry) : io read_result :=
  calling (call_git_blob_free blob) tt ;;
  calling (call_git_tree_entry_free tree_entry) tt ;;
  ret (error, out, out_id).

Definition tree_reader_read (out : git_buf) (out_id : option git_oid)
    (reader : tree_reader) (filename : string) : io read_result :=
  r <- calling (call_git_tree_entry_bypath (tree reader) filename)
         (git_tree_entry_bypath W (tree reader) filename) ;;
  match r with
  | Err e => tree_reader_done (errno e) out out_id NULL NULL
  | Ok tree_entry =>
      let owner := git_tree_owner W (tree reader) in
      r <- calling
             (call_git_blob_lookup owner (git_tree_entry_id tree_entry))
             (git_blob_lookup W owner (git_tree_entry_id tree_entry)) ;;
      match r with
      | Err e =>
          tree_reader_done (errno e) out out_id NULL (Ref tree_entry)
      | Ok blob =>
          let error := 0 in
          let out := git_buf_clear out in
          let out := git_buf_put W out (git_blob_rawcontent blob) in
          let error := if git_buf_oom out then -1 else error in
          let out_id := out_id_cpy out_id (git_tree_entry_id tree_entry) in
          tree_reader_done error out out_id (Ref blob) (Ref tree_entry)
      end
  end.

(** The three private teardowns have an empty body ([GIT_UNUSED]);
    only the call itself is recorded. *)
Definition tree_reader_free (reader : tree_reader) : io unit :=
  calling (call_tree_reader_free reader) tt.

Definition git_reader_for_tree (t : git_tree) : io (int * option git_reader) :=
  ok <- calling (call_git__calloc sizeof_tree_reader)
          (git__calloc W sizeof_tree_reader) ;;
  if ok : bool
  then ret (0, Some (TreeReader {| tree := t |}))
  else ret (-1, None).
End TreeReader.

(** ** Workdir reader *)

(** The local [id] of [workdir_reader_read] before [git_odb_hash] has
    written it; it is not read on the path that skips the hash. *)
Definition id_uninitialized : git_oid := [].

Definition is_set {A : Type} (p : option A) : bool :=
  match p with
  | Some _ => true
  | None => false
  end.

Section WorkdirReader.
Variable W : collaborators.

(** The label [done] of [workdir_reader_read]. *)
Definition workdir_reader_done (error : int) (out : git_buf)
    (out_id : option git_oid) (filters : option git_filter_list)
    (path : option string) : io read_result :=
  calling (call_git_filter_list_free filters) tt ;;
  calling (call_git_buf_dispose path) tt ;;
  ret (error, out, out_id).

(** Lines 117-123: the check against the staging table.  [true] means
    [error = GIT_READER_MISMATCH; goto done]. *)
Definition workdir_reader_mismatch (reader : workdir_reader)
    (filename : string) (id : git_oid) : io bool :=
  match workdir_index reader with
  | Some index =>
      idx_entry <- calling (call_git_index_get_bypath index filename 0)
                     (git_index_get_bypath W index filename 0) ;;
      match idx_entry with
      | None => ret true
      | Some idx_entry =>
          ret (negb (git_oid_equal id (git_index_entry.id idx_entry)))
      end
  | None => ret false
  end.

Definition workdir_reader_read (out : git_buf) (out_id : option git_oid)
    (reader : workdir_reader) (filename : string) : io read_result :=
  let repo := workdir_repo reader in
  let root := git_repository_workdir W repo in
  r <- calling (call_git_buf_joinpath root filename)
         (git_buf_joinpath W root filename) ;;
  match r with
  | Err e => workdir_reader_done (errno e) out out_id None None
  | Ok path =>
      r <- calling (call_git_filter_list_load repo filename)
             (git_filter_list_load W repo filename) ;;
      match r with
      | Err e => workdir_reader_done (errno e) out out_id None (Some path)
      | Ok filters =>
          r <- calling (call_git_filter_list_apply_to_file filters repo path)
                 (git_filter_list_apply_to_file W out filters repo path) ;;
          let (r, out) := r : result unit * git_buf in
          match r with
          | Err e =>
              workdir_reader_done (errno e) out out_id filters (Some path)
          | Ok _ =>
              let error := 0 in
              r <- (if is_set out_id || is_set (workdir_index reader)
                    then
                      calling
                        (call_git_odb_hash (git_buf_bytes out) GIT_OBJ_BLOB)
                        (git_odb_hash W (git_buf_bytes out) GIT_OBJ_BLOB)
                    else ret (Ok id_uninitialized)) ;;
              match r with
              | Err e =>
                  workdir_reader_done (errno e) out out_id filters
                    (Some path)
              | Ok id =>
                  mismatch <- workdir_reader_mismatch reader filename id ;;
                  if mismatch : bool
                  then
                    workdir_reader_done GIT_READER_MISMATCH out out_id
                      filters (Some path)
                  else
                    workdir_reader_done error out (out_id_cpy out_id id)
                      filters (Some path)
              end
          end
      end
  end.

Definition workdir_reader_free (reader : workdir_reader) : io unit :=
  calling (call_workdir_reader_free reader) tt.

Definition git_reader_for_workdir (repo : git_repository)
    (validate_index : bool) : io (int * option git_reader) :=
  ok <- calling (call_git__calloc sizeof_workdir_reader)
          (git__calloc W sizeof_workdir_reader) ;;
  if ok : bool
  then
    if validate_index
    then
      r <- calling (call_git_repository_index__weakptr repo)
             (git_repository_index__weakptr W repo) ;;
      match r with
      | Err e =>
          calling (call_git__free_unfinished sizeof_workdir_reader) tt ;;
          ret (errno e, None)
      | Ok index =>
          ret (0, Some (WorkdirReader {| workdir_repo := repo;
                                         workdir_index := Some index |}))
      end
    else
      ret (0, Some (WorkdirReader {| workdir_repo := repo;
                                     workdir_index := None |}))
  else ret (-1, None).
End WorkdirReader.

(** ** Index reader *)

Section IndexReader.
Variable W : collaborators.

(** The label [done] of [index_reader_read].  The local [blob] is
    declared without an initialiser, so it is [Uninitialized] when the
    blob lookup failed. *)
Definition index_reader_done (error : int) (out : git_buf)
    (out_id : option git_oid) (blob : pointer git_blob) : io read_result :=
  calling (call_git_blob_free blob) tt ;;
  ret (error, out, out_id).

Definition index_reader_read (out : git_buf) (out_id : option git_oid)
    (reader : index_reader) (filename : string) : io read_result :=
  entry <- calling
             (call_git_index_get_bypath (index_index reader) filename 0)
             (git_index_get_bypath W (index_index reader) filename 0) ;;
  match entry with
  | None => ret (GIT_ENOTFOUND, out, out_id)
  | Some entry =>
      let entry_id := git_index_entry.id entry in
      r <- calling (call_git_blob_lookup (index_repo reader) entry_id)
             (git_blob_lookup W (index_repo reader) entry_id) ;;
      match r with
      | Err e => index_reader_done (errno e) out out_id Uninitialized
      | Ok blob =>
          let out_id := out_id_cpy out_id entry_id in
          r <- calling (call_git_blob__getbuf blob)
                 (git_blob__getbuf W out blob) ;;
          let (error, out) := r : int * git_buf in
          index_reader_done error out out_id (Ref blob)
      end
  end.

Definition index_reader_free (reader : index_reader) : io unit :=
  calling (call_index_reader_free reader) tt.

Definition git_reader_for_index (repo : git_repository)
    (index : option git_index) : io (int * option git_reader) :=
  ok <- calling (call_git__calloc sizeof_index_reader)
          (git__calloc W sizeof_index_reader) ;;
  if ok : bool
  then
    match index with
    | Some index =>
        ret (0, Some (IndexReader {| index_repo := repo;
                                     index_index := index |}))
    | None =>
        r <- calling (call_git_repository_index__weakptr repo)
               (git_repository_index__weakptr W repo) ;;
        match r with
        | Err e =>
            calling (call_git__free_unfinished sizeof_index_reader) tt ;;
            ret (errno e, None)
        | Ok index =>
            ret (0, Some (IndexReader {| index_repo := repo;
                                         index_index := index |}))
        end
    end
  else ret (-1, None).
End IndexReader.

(** ** Generic *)

Definition git_reader_read (W : collaborators) (out : git_buf)
    (out_id : option git_oid) (reader : git_reader) (filename : string)
  : io read_result :=
  match reader with
  | TreeReader r => tree_reader_read W out out_id r filename
  | WorkdirReader r => workdir_reader_read W out out_id r filename
  | IndexReader r => index_reader_read W out out_id r filename
  end.

(** [reader->free(reader)]. *)
Definition reader_free (reader : git_reader) : io unit :=
  match reader with
  | TreeReader r => tree_reader_free r
  | WorkdirReader r => workdir_reader_free r
  | IndexReader r => index_reader_free r
  end.

(** [None] is the null reader. *)
Definition git_reader_free (reader : option git_reader) : io unit :=
  match reader with
  | None => ret tt
  | Some reader =>
      reader_free reader ;;
      calling (call_git__free reader) tt
  end.

(** ** Storage *)

(** What a call can release: the storage of a reader, the objects a
    read acquired on the way (blob, tree entry, filter list, path
    buffer), and the objects a reader borrows. *)
Inductive object : Type :=
| reader_storage (reader : git_reader)
| unfinished_storage (what : reader_struct)
| blob_object (blob : pointer git_blob)
| tree_entry_object (entry : pointer git_tree_entry)
| filter_list_object (filters : option git_filter_list)
| path_buffer (path : option string)
| tree_object (t : git_tree)
| index_object (index : git_index)
| repository_object (repo : git_repository).

Definition released (c : call) : list object :=
  match c with
  | call_git__free reader => [reader_storage reader]
  | call_git__free_unfinished what => [unfinished_storage what]
  | call_git_blob_free blob => [blob_object blob]
  | call_git_tree_entry_free entry => [tree_entry_object entry]
  | call_git_filter_list_free filters => [filter_list_object filters]
  | call_git_buf_dispose path => [path_buffer path]
  | _ => []
  end.

(** The objects a reader refers to and does not own. *)
Definition borrowed (reader : git_reader) : list object :=
  match reader with
  | TreeReader r => [tree_object (tree r)]
  | WorkdirReader r =>
      repository_object (workdir_repo r) ::
      match workdir_index r with
      | Some index => [index_object index]
      | None => []
      end
  | IndexReader r =>
      [repository_object (index_repo r); index_object (index_index r)]
  end.

(** The private teardown a reader's [free] pointer designates. *)
Definition teardown (reader : git_reader) : call :=
  match reader with
  | TreeReader r => call_tree_reader_free r
  | WorkdirReader r => call_workdir_reader_free r
  | IndexReader r => call_index_reader_free r
  end.

Definition is_git_odb_hash (c : call) : bool :=
  match c with
  | call_git_odb_hash _ _ => true
  | _ => false
  end.

Definition is_staging_access (c : call) : bool :=
  match c with
  | call_git_index_get_bypath _ _ _ => true
  | call_git_repository_index__weakptr _ => true
  | _ => false
  end.

(** What a call hands to the reader for it to release: the tree entry
    and the blob of a successful lookup, the joined path, the loaded
    filter list. *)
Definition acquired (W : collaborators) (c : call) : list object :=
  match c with
  | call_git_tree_entry_bypath t filename =>
      match git_tree_entry_bypath W t filename with
      | Ok e => [tree_entry_object (Ref e)]
      | Err _ => []
      end
  | call_git_blob_lookup repo oid =>
      match git_blob_lookup W repo oid with
      | Ok b => [blob_object (Ref b)]
      | Err _ => []
      end
  | call_git_buf_joinpath a b =>
      match git_buf_joinpath W a b with
      | Ok p => [path_buffer (Some p)]
      | Err _ => []
      end
  | call_git_filter_list_load repo filename =>
      match git_filter_list_load W repo filename with
      | Ok (Some filters) => [filter_list_object (Some filters)]
      | Ok None => []
      | Err _ => []
      end
  | _ => []
  end.

(** A pointer handed to a release function that designates something:
    neither a null pointer nor the untouched [GIT_BUF_INIT] path. *)
Definition designates (o : object) : bool :=
  match o with
  | blob_object NULL => false
  | tree_entry_object NULL => false
  | filter_list_object None => false
  | path_buffer None => false
  | _ => true
  end.

(** The collaborators with another object hash in place of
    [git_odb_hash]. *)
Definition set_git_odb_hash (W : collaborators)
    (hash : list byte -> git_otype -> result git_oid) : collaborators :=
  {| git_tree_entry_bypath := git_tree_entry_bypath W;
     git_tree_owner := git_tree_owner W;
     git_blob_lookup := git_blob_lookup W;
     git_buf_try_grow := git_buf_try_grow W;
     git_repository_workdir := git_repository_workdir W;
     git_buf_joinpath := git_buf_joinpath W;
     git_filter_list_load := git_filter_list_load W;
     git_filter_list_apply_to_file := git_filter_list_apply_to_file W;
     git_odb_hash := hash;
     git_index_get_bypath := git_index_get_bypath W;
     git_repository_index__weakptr := git_repository_index__weakptr W;
     git__calloc := git__calloc W |}.

(** A constructor either returns 0 with a reader and releases nothing,
    or returns a negative code without a reader. *)
Definition all_or_nothing (m : io (int * option git_reader)) : Prop :=
  match value m with
  | (0, Some _) => flat_map released (calls m) = []
  | (error, None) => error < 0
  | (_, Some _) => False
  end.

(** ** A small repository *)

(** One repository with a tree, a staging table and a working
    directory, used to run the readers on concrete inputs. *)
Module Sample.

Definition bytes (s : string) : list byte := list_byte_of_string s.

(** A stand-in for the object store's hash: the length and the sum of
    the bytes, both modulo 256. *)
Definition hash (data : list byte) : git_oid :=
  let sum := fold_right (fun b n => (Byte.to_N b + n)%N) 0%N data in
  let to_byte n :=
    match Byte.of_N (n mod 256)%N with
    | Some b => b
    | None => x00
    end in
  [to_byte (N.of_nat (List.length data)); to_byte sum].

Definition repo : git_repository := 1%nat.
Definition T : git_tree := 10%nat.
Definition I : git_index := 20%nat.

Fixpoint assoc {A : Type} (k : string) (l : list (string * A)) : option A :=
  match l with
  | [] => None
  | (k', v) :: l => if String.eqb k k' then Some v else assoc k l
  end.

(** The tree holds [a.txt] with content [hello]. *)
Definition tree_entries : list (string * git_tree_entry) :=
  [("a.txt", {| git_tree_entry_id := hash (bytes "hello") |})].

(** The object store holds the blobs [hello] and [world]. *)
Definition blobs : list (list byte) := [bytes "hello"; bytes "world"].

(** [a.txt] and [b.txt] are staged; [c.txt] is not. *)
Definition staged : list (string * git_index_entry.t) :=
  [("a.txt", {| git_index_entry.path := "a.txt";
                git_index_entry.id := hash (bytes "hello") |});
   ("b.txt", {| git_index_entry.path := "b.txt";
                git_index_entry.id := hash (bytes "world") |})].

(** The working files, as they are on disk: [a.txt] was edited,
    [b.txt] has a carriage return that the filter removes, [c.txt] is
    new. *)
Definition files : list (string * list byte) :=
  [("/repo/a.txt", bytes "hello!");
   ("/repo/b.txt", [x77; x6f; x72; x6c; x64; x0d]);
   ("/repo/c.txt", bytes "new")].

Definition crlf_filter (data : list byte) : list byte :=
  filter (fun b => negb (Byte.eqb b x0d)) data.

Definition world (grow : bool) : collaborators :=
  {| git_tree_entry_bypath := fun t filename =>
       if Nat.eqb t T
       then match assoc filename tree_entries with
            | Some e => Ok e
            | None => Err 3
            end
       else Err 3;
     git_tree_owner := fun _ => repo;
     git_blob_lookup := fun r oid =>
       match find (fun b => git_oid_equal (hash b) oid) blobs with
       | Some b => Ok {| git_blob_rawcontent := b |}
       | None => Err 3
       end;
     git_buf_try_grow := fun _ _ => grow;
     git_repository_workdir := fun _ => "/repo/";
     git_buf_joinpath := fun a b => Ok (a ++ b)%string;
     git_filter_list_load := fun _ _ => Ok (Some 1%nat);
     git_filter_list_apply_to_file := fun out _ _ abspath =>
       match assoc abspath files with
       | Some data => (Ok tt, Buf (crlf_filter data))
       | None => (Err 3, out)
       end;
     git_odb_hash := fun data _ => Ok (hash data);
     git_index_get_bypath := fun index filename stage =>
       if Nat.eqb index I && Z.eqb stage 0 then assoc filename staged
       else None;
     git_repository_index__weakptr := fun _ => Ok I;
     git__calloc := fun _ => true |}.

Definition tree_reader_T : git_reader := TreeReader {| tree := T |}.

Definition index_reader_I : git_reader :=
  IndexReader {| index_repo := repo; index_index := I |}.

Definition workdir_reader_validating : git_reader :=
  WorkdirReader {| workdir_repo := repo; workdir_index := Some I |}.

Definition workdir_reader_plain : git_reader :=
  WorkdirReader {| workdir_repo := repo; workdir_index := None |}.

(** A location for the identity output, holding zeroes before the
    call. *)
Definition some_id : option git_oid := Some [x00; x00].

(** The same repository with some collaborators out of order: the
    object hash, the repository's staging table, the working directory
    (path join and filter load), or the object store. *)
Definition faulty (hash_ok index_ok workdir_ok odb_ok : bool)
  : collaborators :=
  {| git_tree_entry_bypath := git_tree_entry_bypath (world true);
     git_tree_owner := git_tree_owner (world true);
     git_blob_lookup := fun r oid =>
       if odb_ok then git_blob_lookup (world true) r oid else Err 3;
     git_buf_try_grow := git_buf_try_grow (world true);
     git_repository_workdir := git_repository_workdir (world true);
     git_buf_joinpath := fun a b =>
       if workdir_ok then git_buf_joinpath (world true) a b else Err 1;
     git_filter_list_load := fun r filename =>
       if workdir_ok then git_filter_list_load (world true) r filename
       else Err 1;
     git_filter_list_apply_to_file :=
       git_filter_list_apply_to_file (world true);
     git_odb_hash := fun data type =>
       if hash_ok then git_odb_hash (world true) data type else Err 1;
     git_index_get_bypath := git_index_get_bypath (world true);
     git_repository_index__weakptr := fun r =>
       if index_ok then git_repository_index__weakptr (world true) r
       else Err 1;
     git__calloc := git__calloc (world true) |}.

End Sample.

(** The scenarios of the readers' contract, run on the small
    repository. *)
Example tree_reader_scenario :
  value (git_reader_read (Sample.world true) GIT_BUF_INIT Sample.some_id
           Sample.tree_reader_T "a.txt")
  = (0, Buf (Sample.bytes "hello"),
     Some (Sample.hash (Sample.bytes "hello")))
  /\ read_error
       (value (git_reader_read (Sample.world true) GIT_BUF_INIT
                 Sample.some_id Sample.tree_reader_T "missing.txt"))
     = GIT_ENOTFOUND.
Proof. split; reflexivity. Qed.

Example workdir_reader_scenario :
  value (git_reader_read (Sample.world true) GIT_BUF_INIT Sample.some_id
           Sample.workdir_reader_validating "a.txt")
  = (GIT_READER_MISMATCH, Buf (Sample.bytes "hello!"), Sample.some_id)
  /\ value (git_reader_read (Sample.world true) GIT_BUF_INIT
              Sample.some_id Sample.workdir_reader_validating "b.txt")
     = (0, Buf (Sample.bytes "world"),
        Some (Sample.hash (Sample.bytes "world"))).
Proof. split; reflexivity. Qed.

(** * Properties *)

(** ** Basic facts *)

Lemma git_oid_equal_true (a b : git_oid) :
  git_oid_equal a b = true <-> a = b.
Proof.
  unfold git_oid_equal.
  destruct (list_eq_dec Byte.byte_eq_dec a b); split; congruence.
Qed.

Lemma git_oid_equal_false (a b : git_oid) :
  git_oid_equal a b = false <-> a <> b.
Proof.
  unfold git_oid_equal.
  destruct (list_eq_dec Byte.byte_eq_dec a b); split; congruence.
Qed.

Lemma errno_nonzero (e : positive) : errno e <> 0.
Proof. unfold errno. discriminate. Qed.

Lemma git_buf_put_oom (W : collaborators) (b : git_buf) (data : list byte) :
  git_buf_oom (git_buf_put W b data) = true -> git_buf_put W b data = BufOom.
Proof. destruct (git_buf_put W b data); [discriminate | reflexivity]. Qed.

Lemma git_buf_set_failure (W : collaborators) (b : git_buf)
    (data : list byte) :
  fst (git_buf_set W b data) <> 0 -> git_buf_set W b data = (-1, BufOom).
Proof.
  unfold git_buf_set.
  destruct data as [|x data]; [cbn; congruence |].
  destruct b as [old|]; [| reflexivity].
  destruct (git_buf_try_grow W (Buf old) _); cbn; congruence.
Qed.

(** A successful [git_reader_for_workdir] binds the repository, and
    binds its staging table exactly when validation was asked for. *)
Lemma git_reader_for_workdir_ok (W : collaborators) (repo : git_repository)
    (validate_index : bool) (reader : git_reader) :
  value (git_reader_for_workdir W repo validate_index) = (0, Some reader) ->
  if validate_index
  then exists index,
      git_repository_index__weakptr W repo = Ok index /\
      reader = WorkdirReader {| workdir_repo := repo;
                                workdir_index := Some index |}
  else reader = WorkdirReader {| workdir_repo := repo;
                                 workdir_index := None |}.
Proof.
  unfold git_reader_for_workdir. cbn.
  destruct (git__calloc W sizeof_workdir_reader); cbn; [| discriminate].
  destruct validate_index; cbn.
  - destruct (git_repository_index__weakptr W repo) as [index|e]; cbn.
    + intros H. exists index. split; congruence.
    + discriminate.
  - congruence.
Qed.

(** ** Tree and index readers *)

(** C4: for a path present in the bound tree whose blob is in the
    object store, a tree read through a usable buffer whose growth
    succeeds returns 0, fills the buffer with exactly the raw bytes of the
    blob named by the tree entry, and copies the entry's stored identity
    to the identity output when one was passed. *)
Theorem tree_reader_read_present (W : collaborators) (out : git_buf)
    (out_id : option git_oid) (reader : tree_reader) (p : string)
    (e : git_tree_entry) (b : git_blob) :
  git_tree_entry_bypath W (tree reader) p = Ok e ->
  git_blob_lookup W (git_tree_owner W (tree reader)) (git_tree_entry_id e)
  = Ok b ->
  git_buf_oom out = false ->
  git_buf_try_grow W (Buf []) (List.length (git_blob_rawcontent b) + 1)
  = true ->
  let r := value (git_reader_read W out out_id (TreeReader reader) p) in
  read_error r = 0 /\
  read_out r = Buf (git_blob_rawcontent b) /\
  read_out_id r = out_id_cpy out_id (git_tree_entry_id e) /\
  (forall old, out_id = Some old ->
               read_out_id r = Some (git_tree_entry_id e)).
Proof.
  intros Hentry Hblob Hout Hgrow.
  unfold git_reader_read, tree_reader_read. cbn.
  rewrite Hentry. cbn. rewrite Hblob. cbn.
  destruct out as [old|]; [| discriminate]. cbn.
  rewrite Hgrow. cbn.
  repeat split. intros old' ->. reflexivity.
Qed.

Lemma tree_reader_read_present_witness :
  let r := value (git_reader_read (Sample.world true) GIT_BUF_INIT
                    Sample.some_id Sample.tree_reader_T "a.txt") in
  read_error r = 0 /\
  read_out r = Buf (Sample.bytes "hello") /\
  read_out_id r = Some (Sample.hash (Sample.bytes "hello")) /\
  (forall old, Sample.some_id = Some old ->
               read_out_id r = Some (Sample.hash (Sample.bytes "hello"))).
Proof.
  apply (tree_reader_read_present (Sample.world true) GIT_BUF_INIT
           Sample.some_id {| tree := Sample.T |} "a.txt"
           {| git_tree_entry_id := Sample.hash (Sample.bytes "hello") |}
           {| git_blob_rawcontent := Sample.bytes "hello" |});
    reflexivity.
Defined.

(** C5: for a path absent from the bound view, a tree read returns the
    NotFound code of the tree lookup, and an index read, which asks the
    staging table for the exact path at stage 0 and nothing else, returns
    NotFound; both leave the buffer and the identity output as they
    were. *)
Theorem read_absent_notfound (W : collaborators) (out : git_buf)
    (out_id : option git_oid) (treader : tree_reader)
    (ireader : index_reader) (p : string) (e : positive) :
  git_tree_entry_bypath W (tree treader) p = Err e ->
  errno e = GIT_ENOTFOUND ->
  git_index_get_bypath W (index_index ireader) p 0 = None ->
  value (git_reader_read W out out_id (TreeReader treader) p)
  = (GIT_ENOTFOUND, out, out_id) /\
  value (git_reader_read W out out_id (IndexReader ireader) p)
  = (GIT_ENOTFOUND, out, out_id) /\
  calls (git_reader_read W out out_id (IndexReader ireader) p)
  = [call_git_index_get_bypath (index_index ireader) p 0].
Proof.
  intros Htree Hcode Hindex.
  unfold git_reader_read, tree_reader_read, index_reader_read. cbn.
  rewrite Htree, Hindex. cbn. rewrite Hcode. auto.
Qed.

Lemma read_absent_notfound_witness :
  value (git_reader_read (Sample.world true) GIT_BUF_INIT Sample.some_id
           Sample.tree_reader_T "missing.txt")
  = (GIT_ENOTFOUND, GIT_BUF_INIT, Sample.some_id) /\
  value (git_reader_read (Sample.world true) GIT_BUF_INIT Sample.some_id
           Sample.index_reader_I "missing.txt")
  = (GIT_ENOTFOUND, GIT_BUF_INIT, Sample.some_id) /\
  calls (git_reader_read (Sample.world true) GIT_BUF_INIT Sample.some_id
           Sample.index_reader_I "missing.txt")
  = [call_git_index_get_bypath Sample.I "missing.txt" 0].
Proof.
  apply (read_absent_notfound (Sample.world true) GIT_BUF_INIT
           Sample.some_id {| tree := Sample.T |}
           {| index_repo := Sample.repo; index_index := Sample.I |}
           "missing.txt" 3%positive);
    reflexivity.
Defined.

(** C6: for a path with an entry in the bound staging table whose blob
    is in the object store, an index read through a usable buffer whose
    growth succeeds returns 0, fills the buffer with exactly the raw bytes
    of the blob named by the entry, and copies the entry's stored identity
    to the identity output when one was passed. *)
Theorem index_reader_read_present (W : collaborators) (out : git_buf)
    (out_id : option git_oid) (reader : index_reader) (p : string)
    (e : git_index_entry.t) (b : git_blob) :
  git_index_get_bypath W (index_index reader) p 0 = Some e ->
  git_blob_lookup W (index_repo reader) (git_index_entry.id e) = Ok b ->
  git_buf_oom out = false ->
  git_buf_try_grow W out (List.length (git_blob_rawcontent b) + 1) = true ->
  let r := value (git_reader_read W out out_id (IndexReader reader) p) in
  read_error r = 0 /\
  read_out r = Buf (git_blob_rawcontent b) /\
  read_out_id r = out_id_cpy out_id (git_index_entry.id e) /\
  (forall old, out_id = Some old ->
               read_out_id r = Some (git_index_entry.id e)).
Proof.
  intros Hentry Hblob Hout Hgrow.
  unfold git_reader_read, index_reader_read. cbn.
  rewrite Hentry. cbn. rewrite Hblob. cbn.
  unfold git_blob__getbuf, git_buf_set.
  destruct out as [old|]; [| discriminate].
  destruct (git_blob_rawcontent b) as [|x data] eqn:Hdata; cbn.
  - repeat split. intros old' ->. reflexivity.
  - cbn in Hgrow. rewrite Hgrow. cbn.
    repeat split. intros old' ->. reflexivity.
Qed.

Lemma index_reader_read_present_witness :
  let r := value (git_reader_read (Sample.world true) GIT_BUF_INIT
                    Sample.some_id Sample.index_reader_I "b.txt") in
  read_error r = 0 /\
  read_out r = Buf (Sample.bytes "world") /\
  read_out_id r = Some (Sample.hash (Sample.bytes "world")) /\
  (forall old, Sample.some_id = Some old ->
               read_out_id r = Some (Sample.hash (Sample.bytes "world"))).
Proof.
  apply (index_reader_read_present (Sample.world true) GIT_BUF_INIT
           Sample.some_id
           {| index_repo := Sample.repo; index_index := Sample.I |}
           "b.txt"
           {| git_index_entry.path := "b.txt";
              git_index_entry.id := Sample.hash (Sample.bytes "world") |}
           {| git_blob_rawcontent := Sample.bytes "world" |});
    reflexivity.
Defined.

(** C10: the identity output is written on two failing paths.  In a
    tree read whose copy of the blob bytes runs out of memory, the call
    returns -1 and the identity location holds the entry's identity.  In
    an index read the identity is copied before the content is loaded,
    so when [git_blob__getbuf] fails the call returns its error and the
    identity location holds the entry's identity. *)
Theorem identity_written_on_failure (W : collaborators) (out : git_buf)
    (old : git_oid) (treader : tree_reader) (ireader : index_reader)
    (p q : string) (te : git_tree_entry) (tb : git_blob)
    (ie : git_index_entry.t) (ib : git_blob) :
  git_tree_entry_bypath W (tree treader) p = Ok te ->
  git_blob_lookup W (git_tree_owner W (tree treader)) (git_tree_entry_id te)
  = Ok tb ->
  git_buf_oom (git_buf_put W (git_buf_clear out) (git_blob_rawcontent tb))
  = true ->
  git_index_get_bypath W (index_index ireader) q 0 = Some ie ->
  git_blob_lookup W (index_repo ireader) (git_index_entry.id ie) = Ok ib ->
  fst (git_blob__getbuf W out ib) <> 0 ->
  value (git_reader_read W out (Some old) (TreeReader treader) p)
  = (-1, BufOom, Some (git_tree_entry_id te)) /\
  value (git_reader_read W out (Some old) (IndexReader ireader) q)
  = (-1, BufOom, Some (git_index_entry.id ie)).
Proof.
  intros Hte Htb Hoom Hie Hib Hget.
  unfold git_reader_read, tree_reader_read, index_reader_read. cbn.
  rewrite Hte, Hie. cbn. rewrite Htb, Hib. cbn.
  rewrite Hoom, (git_buf_put_oom _ _ _ Hoom).
  unfold git_blob__getbuf in *.
  rewrite (git_buf_set_failure _ _ _ Hget). cbn.
  split; reflexivity.
Qed.

Lemma identity_written_on_failure_witness :
  value (git_reader_read (Sample.world false) GIT_BUF_INIT
           Sample.some_id Sample.tree_reader_T "a.txt")
  = (-1, BufOom, Some (Sample.hash (Sample.bytes "hello"))) /\
  value (git_reader_read (Sample.world false) GIT_BUF_INIT
           Sample.some_id Sample.index_reader_I "b.txt")
  = (-1, BufOom, Some (Sample.hash (Sample.bytes "world"))).
Proof.
  apply (identity_written_on_failure (Sample.world false) GIT_BUF_INIT
           [x00; x00] {| tree := Sample.T |}
           {| index_repo := Sample.repo; index_index := Sample.I |}
           "a.txt" "b.txt"
           {| git_tree_entry_id := Sample.hash (Sample.bytes "hello") |}
           {| git_blob_rawcontent := Sample.bytes "hello" |}
           {| git_index_entry.path := "b.txt";
              git_index_entry.id := Sample.hash (Sample.bytes "world") |}
           {| git_blob_rawcontent := Sample.bytes "world" |});
    first [reflexivity | discriminate].
Defined.

(** ** The output buffer on failure *)

(** A validating workdir read of the edited [a.txt] fails with
    Mismatch and leaves the whole filtered content in the buffer, which
    was empty before the call. *)
Lemma workdir_mismatch_keeps_content :
  let r := value (git_reader_read (Sample.world true) GIT_BUF_INIT None
                    Sample.workdir_reader_validating "a.txt") in
  read_error r = GIT_READER_MISMATCH /\
  read_error r <> 0 /\
  read_out r = Buf (Sample.bytes "hello!") /\
  git_buf_bytes (read_out r) <> [].
Proof. cbn. repeat split; discriminate. Qed.

(** C2, as the code has it: when a read returns an error, the buffer
    is in one of three states, fixed by the step that failed.  Tree and
    index readers: exactly as the caller passed it when the entry or the
    blob was not found, and the out-of-memory buffer, which holds no
    bytes, when copying the blob failed.  Workdir reader: exactly as the
    caller passed it when the path join or the filter load failed, and
    otherwise exactly as [git_filter_list_apply_to_file] left it, which
    on a hash failure or a mismatch is the complete filtered content. *)
Theorem read_error_output_buffer (W : collaborators) (out : git_buf)
    (out_id : option git_oid) (reader : git_reader) (filename : string) :
  read_error (value (git_reader_read W out out_id reader filename)) <> 0 ->
  let out' := read_out (value (git_reader_read W out out_id reader filename)) in
  match reader with
  | TreeReader r =>
      match git_tree_entry_bypath W (tree r) filename with
      | Err _ => out' = out
      | Ok e =>
          match git_blob_lookup W (git_tree_owner W (tree r))
                  (git_tree_entry_id e) with
          | Err _ => out' = out
          | Ok _ => out' = BufOom
          end
      end
  | IndexReader r =>
      match git_index_get_bypath W (index_index r) filename 0 with
      | None => out' = out
      | Some entry =>
          match git_blob_lookup W (index_repo r)
                  (git_index_entry.id entry) with
          | Err _ => out' = out
          | Ok _ => out' = BufOom
          end
      end
  | WorkdirReader r =>
      match git_buf_joinpath W (git_repository_workdir W (workdir_repo r))
              filename with
      | Err _ => out' = out
      | Ok path =>
          match git_filter_list_load W (workdir_repo r) filename with
          | Err _ => out' = out
          | Ok filters =>
              out' = snd (git_filter_list_apply_to_file W out filters
                            (workdir_repo r) path)
          end
      end
  end.
Proof.
  destruct reader as [r|r|r]; cbn.
  - unfold tree_reader_read. cbn.
    destruct (git_tree_entry_bypath W (tree r) filename) as [e|c]; cbn;
      [| reflexivity].
    destruct (git_blob_lookup W _ _) as [b|c]; cbn; [| reflexivity].
    destruct (git_buf_put W (git_buf_clear out) (git_blob_rawcontent b));
      cbn; [congruence | reflexivity].
  - unfold workdir_reader_read. cbn.
    destruct (git_buf_joinpath W _ filename) as [path|c]; cbn;
      [| reflexivity].
    destruct (git_filter_list_load W _ filename) as [filters|c]; cbn;
      [| reflexivity].
    intros _.
    destruct (git_filter_list_apply_to_file W out filters _ path)
      as [[u|c] o]; cbn; [| reflexivity].
    destruct (is_set out_id || is_set (workdir_index r)); cbn.
    + destruct (git_odb_hash W _ _) as [id|c]; cbn; [| reflexivity].
      unfold workdir_reader_mismatch.
      destruct (workdir_index r) as [index|]; cbn; [| reflexivity].
      destruct (git_index_get_bypath W index filename 0) as [entry|]; cbn;
        [| reflexivity].
      destruct (git_oid_equal id _); reflexivity.
    + unfold workdir_reader_mismatch.
      destruct (workdir_index r) as [index|]; cbn; [| reflexivity].
      destruct (git_index_get_bypath W index filename 0) as [entry|]; cbn;
        [| reflexivity].
      destruct (git_oid_equal _ _); reflexivity.
  - unfold index_reader_read. cbn.
    destruct (git_index_get_bypath W _ filename 0) as [entry|]; cbn;
      [| reflexivity].
    destruct (git_blob_lookup W _ _) as [b|c]; cbn; [| reflexivity].
    unfold git_blob__getbuf.
    destruct (git_buf_set W out (git_blob_rawcontent b)) as [error o] eqn:H.
    cbn. intros Herror.
    assert (Hfail : fst (git_buf_set W out (git_blob_rawcontent b)) <> 0)
      by (rewrite H; exact Herror).
    apply git_buf_set_failure in Hfail. congruence.
Qed.

Lemma read_error_output_buffer_witness :
  read_out (value (git_reader_read (Sample.world true) GIT_BUF_INIT None
                     Sample.workdir_reader_validating "a.txt"))
  = snd (git_filter_list_apply_to_file (Sample.world true) GIT_BUF_INIT
           (Some 1%nat) Sample.repo "/repo/a.txt") /\
  read_out (value (git_reader_read (Sample.world false) (Buf [x6a; x6b])
                     None Sample.tree_reader_T "a.txt"))
  = BufOom /\
  read_out (value (git_reader_read (Sample.world true) (Buf [x6a; x6b])
                     None Sample.index_reader_I "missing.txt"))
  = Buf [x6a; x6b].
Proof.
  split; [| split].
  - refine (read_error_output_buffer (Sample.world true) GIT_BUF_INIT None
              Sample.workdir_reader_validating "a.txt" _).
    cbn. discriminate.
  - refine (read_error_output_buffer (Sample.world false) (Buf [x6a; x6b])
              None Sample.tree_reader_T "a.txt" _).
    cbn. discriminate.
  - refine (read_error_output_buffer (Sample.world true) (Buf [x6a; x6b])
              None Sample.index_reader_I "missing.txt" _).
    cbn. discriminate.
Defined.

(** ** Workdir reader *)

(** [c.txt] exists in the working directory and is not staged: the
    validating workdir read returns Mismatch, which is not NotFound. *)
Lemma workdir_unstaged_is_mismatch :
  value (git_reader_for_workdir (Sample.world true) Sample.repo true)
  = (0, Some Sample.workdir_reader_validating) /\
  git_index_get_bypath (Sample.world true) Sample.I "c.txt" 0 = None /\
  git_filter_list_apply_to_file (Sample.world true) GIT_BUF_INIT
    (Some 1%nat) Sample.repo "/repo/c.txt"
  = (Ok tt, Buf (Sample.bytes "new")) /\
  read_error
    (value (git_reader_read (Sample.world true) GIT_BUF_INIT None
              Sample.workdir_reader_validating "c.txt"))
  = GIT_READER_MISMATCH /\
  read_error
    (value (git_reader_read (Sample.world true) GIT_BUF_INIT None
              Sample.workdir_reader_validating "c.txt"))
  <> GIT_ENOTFOUND.
Proof. cbn. repeat split. discriminate. Qed.

(** Whatever the collaborators answer, a validating workdir read of a
    path with no staging entry does not return 0: either a step before
    the check failed with its own code, or the check reports the
    mismatch. *)
Lemma workdir_validate_unstaged_fails (W : collaborators)
    (reader : workdir_reader) (index : git_index) (out : git_buf)
    (out_id : option git_oid) (p : string) :
  workdir_index reader = Some index ->
  git_index_get_bypath W index p 0 = None ->
  read_error (value (workdir_reader_read W out out_id reader p)) <> 0.
Proof.
  intros Hindex Hentry.
  unfold workdir_reader_read, workdir_reader_mismatch. cbn.
  destruct (git_buf_joinpath W _ p) as [path|c]; cbn;
    [| apply errno_nonzero].
  destruct (git_filter_list_load W _ p) as [filters|c]; cbn;
    [| apply errno_nonzero].
  destruct (git_filter_list_apply_to_file W out filters _ path)
    as [[u|c] o]; cbn; [| apply errno_nonzero].
  rewrite Hindex, orb_true_r. cbn.
  destruct (git_odb_hash W _ _) as [id|c]; cbn; [| apply errno_nonzero].
  rewrite Hentry. cbn. discriminate.
Qed.

(** C1, as the code has it: for a path with no staging entry whose working file
    is read, filtered and hashed without error, a read through a workdir
    reader constructed with validation enabled fails with Mismatch, not
    with NotFound; the filtered content stays in the buffer and the
    identity output is not written. *)
Theorem workdir_validate_unstaged (W : collaborators)
    (repo : git_repository) (reader : git_reader) (index : git_index)
    (out out' : git_buf) (out_id : option git_oid) (p path : string)
    (filters : option git_filter_list) (id : git_oid) :
  value (git_reader_for_workdir W repo true) = (0, Some reader) ->
  git_repository_index__weakptr W repo = Ok index ->
  git_index_get_bypath W index p 0 = None ->
  git_buf_joinpath W (git_repository_workdir W repo) p = Ok path ->
  git_filter_list_load W repo p = Ok filters ->
  git_filter_list_apply_to_file W out filters repo path = (Ok tt, out') ->
  git_odb_hash W (git_buf_bytes out') GIT_OBJ_BLOB = Ok id ->
  value (git_reader_read W out out_id reader p)
  = (GIT_READER_MISMATCH, out', out_id) /\
  GIT_READER_MISMATCH <> GIT_ENOTFOUND.
Proof.
  intros Hnew Hweak Hentry Hjoin Hload Happly Hhash.
  apply git_reader_for_workdir_ok in Hnew.
  destruct Hnew as [index' [Hweak' ->]].
  assert (index' = index) as -> by congruence.
  unfold git_reader_read, workdir_reader_read, workdir_reader_mismatch. cbn.
  rewrite Hjoin. cbn. rewrite Hload. cbn. rewrite Happly. cbn.
  rewrite orb_true_r. cbn. rewrite Hhash. cbn. rewrite Hentry. cbn.
  split; [reflexivity | discriminate].
Qed.

Lemma workdir_validate_unstaged_witness :
  value (git_reader_read (Sample.world true) GIT_BUF_INIT Sample.some_id
           Sample.workdir_reader_validating "c.txt")
  = (GIT_READER_MISMATCH, Buf (Sample.bytes "new"), Sample.some_id) /\
  GIT_READER_MISMATCH <> GIT_ENOTFOUND.
Proof.
  apply (workdir_validate_unstaged (Sample.world true) Sample.repo
           Sample.workdir_reader_validating Sample.I GIT_BUF_INIT
           (Buf (Sample.bytes "new")) Sample.some_id "c.txt"
           "/repo/c.txt" (Some 1%nat) (Sample.hash (Sample.bytes "new")));
    reflexivity.
Defined.

(** C3: for a path with a staging entry whose working file is read,
    filtered and hashed without error, a read through a workdir reader
    constructed with validation enabled fails with Mismatch exactly when
    the computed identity differs from the staged one; when the two
    agree it returns 0 with the filtered content in the buffer and the
    computed identity, equal to the staged one, in the identity output
    when one was passed. *)
Theorem workdir_validate_staged (W : collaborators)
    (repo : git_repository) (reader : git_reader) (index : git_index)
    (out out' : git_buf) (out_id : option git_oid) (p path : string)
    (filters : option git_filter_list) (id : git_oid)
    (e : git_index_entry.t) :
  value (git_reader_for_workdir W repo true) = (0, Some reader) ->
  git_repository_index__weakptr W repo = Ok index ->
  git_index_get_bypath W index p 0 = Some e ->
  git_buf_joinpath W (git_repository_workdir W repo) p = Ok path ->
  git_filter_list_load W repo p = Ok filters ->
  git_filter_list_apply_to_file W out filters repo path = (Ok tt, out') ->
  git_odb_hash W (git_buf_bytes out') GIT_OBJ_BLOB = Ok id ->
  let r := value (git_reader_read W out out_id reader p) in
  (read_error r = GIT_READER_MISMATCH <-> id <> git_index_entry.id e) /\
  (id <> git_index_entry.id e -> r = (GIT_READER_MISMATCH, out', out_id)) /\
  (id = git_index_entry.id e ->
   r = (0, out', out_id_cpy out_id (git_index_entry.id e))).
Proof.
  intros Hnew Hweak Hentry Hjoin Hload Happly Hhash.
  apply git_reader_for_workdir_ok in Hnew.
  destruct Hnew as [index' [Hweak' ->]].
  assert (index' = index) as -> by congruence.
  unfold git_reader_read, workdir_reader_read, workdir_reader_mismatch. cbn.
  rewrite Hjoin. cbn. rewrite Hload. cbn. rewrite Happly. cbn.
  rewrite orb_true_r. cbn. rewrite Hhash. cbn. rewrite Hentry. cbn.
  destruct (git_oid_equal id (git_index_entry.id e)) eqn:Heq; cbn.
  - apply git_oid_equal_true in Heq.
    split; [split; [unfold GIT_READER_MISMATCH; discriminate | tauto] |].
    split; [tauto | intros _; rewrite Heq; reflexivity].
  - apply git_oid_equal_false in Heq.
    split; [tauto |]. split; [reflexivity | tauto].
Qed.

Lemma workdir_validate_staged_witness :
  let r := value (git_reader_read (Sample.world true) GIT_BUF_INIT
                    Sample.some_id Sample.workdir_reader_validating
                    "b.txt") in
  let staged := Sample.hash (Sample.bytes "world") in
  (read_error r = GIT_READER_MISMATCH <->
   Sample.hash (Sample.bytes "world") <> staged) /\
  (Sample.hash (Sample.bytes "world") <> staged ->
   r = (GIT_READER_MISMATCH, Buf (Sample.bytes "world"), Sample.some_id)) /\
  (Sample.hash (Sample.bytes "world") = staged ->
   r = (0, Buf (Sample.bytes "world"), Some staged)).
Proof.
  apply (workdir_validate_staged (Sample.world true) Sample.repo
           Sample.workdir_reader_validating Sample.I GIT_BUF_INIT
           (Buf (Sample.bytes "world")) Sample.some_id "b.txt"
           "/repo/b.txt" (Some 1%nat) (Sample.hash (Sample.bytes "world"))
           {| git_index_entry.path := "b.txt";
              git_index_entry.id := Sample.hash (Sample.bytes "world") |});
    reflexivity.
Defined.

(** C7: in a workdir read that got the filtered content, the identity
    is computed exactly when an identity output was passed or a staging
    table is bound.  It is then [git_odb_hash], as a blob, of the bytes
    the filter left in the output buffer, computed once: its failure is
    the result of the read, and its value is the identity compared with
    the staged one and copied to the identity output.  With neither, no
    hash is computed: the read returns 0 whatever [git_odb_hash] would
    answer, and no workdir read of that kind depends on it. *)
Theorem workdir_hash_iff_needed (W : collaborators) (out out' : git_buf)
    (out_id : option git_oid) (reader : workdir_reader)
    (filename path : string) (filters : option git_filter_list) :
  git_buf_joinpath W (git_repository_workdir W (workdir_repo reader))
    filename = Ok path ->
  git_filter_list_load W (workdir_repo reader) filename = Ok filters ->
  git_filter_list_apply_to_file W out filters (workdir_repo reader) path
  = (Ok tt, out') ->
  let m := git_reader_read W out out_id (WorkdirReader reader) filename in
  (if is_set out_id || is_set (workdir_index reader)
   then
     filter is_git_odb_hash (calls m)
     = [call_git_odb_hash (git_buf_bytes out') GIT_OBJ_BLOB] /\
     match git_odb_hash W (git_buf_bytes out') GIT_OBJ_BLOB with
     | Err e => value m = (errno e, out', out_id)
     | Ok id =>
         match workdir_index reader with
         | None => value m = (0, out', out_id_cpy out_id id)
         | Some index =>
             match git_index_get_bypath W index filename 0 with
             | None => value m = (GIT_READER_MISMATCH, out', out_id)
             | Some entry =>
                 if git_oid_equal id (git_index_entry.id entry)
                 then value m = (0, out', out_id_cpy out_id id)
                 else value m = (GIT_READER_MISMATCH, out', out_id)
             end
         end
     end
   else
     filter is_git_odb_hash (calls m) = [] /\
     value m = (0, out', out_id)) /\
  (forall W0 hash out0 repo0 filename0,
      let plain := WorkdirReader {| workdir_repo := repo0;
                                    workdir_index := None |} in
      filter is_git_odb_hash
        (calls (git_reader_read W0 out0 None plain filename0)) = [] /\
      git_reader_read (set_git_odb_hash W0 hash) out0 None plain filename0
      = git_reader_read W0 out0 None plain filename0).
Proof.
  intros Hjoin Hload Happly. split.
  - unfold git_reader_read, workdir_reader_read, workdir_reader_mismatch.
    cbn. rewrite Hjoin. cbn. rewrite Hload. cbn. rewrite Happly. cbn.
    destruct (is_set out_id || is_set (workdir_index reader)) eqn:Hneed; cbn.
    + destruct (git_odb_hash W _ _) as [id|c]; cbn; [| auto].
      destruct (workdir_index reader) as [index|]; cbn; [| auto].
      destruct (git_index_get_bypath W index filename 0) as [entry|]; cbn;
        [| auto].
      destruct (git_oid_equal id _); cbn; auto.
    + apply orb_false_elim in Hneed. destruct Hneed as [Hid Hindex].
      destruct (workdir_index reader) as [index|]; [discriminate |].
      destruct out_id; [discriminate |]. cbn. auto.
  - intros W0 hash out0 repo0 filename0.
    unfold git_reader_read, workdir_reader_read, workdir_reader_mismatch.
    cbn.
    destruct (git_buf_joinpath W0 _ filename0) as [path0|c]; cbn;
      [| auto].
    destruct (git_filter_list_load W0 _ filename0) as [filters0|c]; cbn;
      [| auto].
    destruct (git_filter_list_apply_to_file W0 out0 filters0 _ path0)
      as [[u|c] o]; cbn; auto.
Qed.

Lemma workdir_hash_iff_needed_witness :
  let m := git_reader_read (Sample.faulty false true true true)
             GIT_BUF_INIT Sample.some_id Sample.workdir_reader_plain
             "b.txt" in
  (filter is_git_odb_hash (calls m)
   = [call_git_odb_hash (Sample.bytes "world") GIT_OBJ_BLOB] /\
   value m = (-1, Buf (Sample.bytes "world"), Sample.some_id)) /\
  (forall W0 hash out0 repo0 filename0,
      let plain := WorkdirReader {| workdir_repo := repo0;
                                    workdir_index := None |} in
      filter is_git_odb_hash
        (calls (git_reader_read W0 out0 None plain filename0)) = [] /\
      git_reader_read (set_git_odb_hash W0 hash) out0 None plain filename0
      = git_reader_read W0 out0 None plain filename0).
Proof.
  exact (workdir_hash_iff_needed (Sample.faulty false true true true)
           GIT_BUF_INIT (Buf (Sample.bytes "world")) Sample.some_id
           {| workdir_repo := Sample.repo; workdir_index := None |}
           "b.txt" "/repo/b.txt" (Some 1%nat) eq_refl eq_refl eq_refl).
Defined.

(** C8: a workdir reader constructed with validation disabled binds no
    staging table; for a path whose working file is read and filtered
    without error (and hashed without error when an identity output was
    passed) its read returns 0 with the filtered bytes in the buffer,
    and neither the construction nor the read consults the staging
    table. *)
Theorem workdir_reader_read_unvalidated (W : collaborators)
    (repo : git_repository) (reader : git_reader)
    (out out' : git_buf) (out_id : option git_oid) (p path : string)
    (filters : option git_filter_list) (id : git_oid) :
  value (git_reader_for_workdir W repo false) = (0, Some reader) ->
  git_buf_joinpath W (git_repository_workdir W repo) p = Ok path ->
  git_filter_list_load W repo p = Ok filters ->
  git_filter_list_apply_to_file W out filters repo path = (Ok tt, out') ->
  out_id = None \/ git_odb_hash W (git_buf_bytes out') GIT_OBJ_BLOB = Ok id ->
  value (git_reader_read W out out_id reader p)
  = (0, out', out_id_cpy out_id id) /\
  filter is_staging_access (calls (git_reader_for_workdir W repo false))
  = [] /\
  filter is_staging_access (calls (git_reader_read W out out_id reader p))
  = [].
Proof.
  intros Hnew Hjoin Hload Happly Hhash.
  apply git_reader_for_workdir_ok in Hnew. subst reader.
  split; [| split].
  - unfold git_reader_read, workdir_reader_read, workdir_reader_mismatch.
    cbn. rewrite Hjoin. cbn. rewrite Hload. cbn. rewrite Happly. cbn.
    destruct Hhash as [-> | Hhash]; cbn; [reflexivity |].
    rewrite orb_false_r.
    destruct out_id as [old|]; cbn; [| reflexivity].
    rewrite Hhash. reflexivity.
  - unfold git_reader_for_workdir. cbn.
    destruct (git__calloc W sizeof_workdir_reader); reflexivity.
  - unfold git_reader_read, workdir_reader_read, workdir_reader_mismatch.
    cbn. rewrite Hjoin. cbn. rewrite Hload. cbn. rewrite Happly. cbn.
    rewrite orb_false_r.
    destruct out_id as [old|]; cbn; [| reflexivity].
    destruct (git_odb_hash W _ _); reflexivity.
Qed.

Lemma workdir_reader_read_unvalidated_witness :
  value (git_reader_read (Sample.world true) GIT_BUF_INIT Sample.some_id
           Sample.workdir_reader_plain "a.txt")
  = (0, Buf (Sample.bytes "hello!"),
     Some (Sample.hash (Sample.bytes "hello!"))) /\
  filter is_staging_access
    (calls (git_reader_for_workdir (Sample.world true) Sample.repo false))
  = [] /\
  filter is_staging_access
    (calls (git_reader_read (Sample.world true) GIT_BUF_INIT
              Sample.some_id Sample.workdir_reader_plain "a.txt"))
  = [].
Proof.
  apply (workdir_reader_read_unvalidated (Sample.world true) Sample.repo
           Sample.workdir_reader_plain GIT_BUF_INIT
           (Buf (Sample.bytes "hello!")) Sample.some_id "a.txt"
           "/repo/a.txt" (Some 1%nat)
           (Sample.hash (Sample.bytes "hello!")));
    first [reflexivity | right; reflexivity].
Defined.

(** ** Teardown *)

(** C9: [git_reader_free] of the null reader makes no call.  Of a
    reader, it calls the teardown of the reader's variant and then
    releases the reader's own storage, and nothing else: no object the
    reader borrows (tree, staging table, repository) is released. *)
Theorem git_reader_free_borrows :
  git_reader_free None = (tt, []) /\
  forall reader : git_reader,
    calls (git_reader_free (Some reader))
    = [teardown reader; call_git__free reader] /\
    flat_map released (calls (git_reader_free (Some reader)))
    = [reader_storage reader] /\
    forall o : object,
      In o (borrowed reader) ->
      ~ In o (flat_map released (calls (git_reader_free (Some reader)))).
Proof.
  split; [reflexivity |].
  intros reader.
  assert (Hcalls : calls (git_reader_free (Some reader))
                   = [teardown reader; call_git__free reader])
    by (destruct reader; reflexivity).
  rewrite Hcalls.
  assert (Hreleased : flat_map released
                        [teardown reader; call_git__free reader]
                      = [reader_storage reader])
    by (destruct reader; reflexivity).
  rewrite Hreleased.
  split; [reflexivity |]. split; [reflexivity |].
  intros o Hborrowed [Hin | []]. subst o.
  destruct reader as [r|r|r]; cbn in Hborrowed.
  - destruct Hborrowed as [H | []]; discriminate.
  - destruct Hborrowed as [H | Hrest]; [discriminate |].
    destruct (workdir_index r); cbn in Hrest;
      [destruct Hrest as [H | []]; discriminate | contradiction].
  - destruct Hborrowed as [H | [H | []]]; discriminate.
Qed.

(** * Further properties of the readers *)

(** ** Constructors *)

(** X1: each of the three constructors either returns 0 together with a
    reader, having released nothing, or returns a negative code and no
    reader. *)
Theorem constructors_all_or_nothing (W : collaborators) (t : git_tree)
    (repo : git_repository) (validate_index : bool)
    (index : option git_index) :
  all_or_nothing (git_reader_for_tree W t) /\
  all_or_nothing (git_reader_for_workdir W repo validate_index) /\
  all_or_nothing (git_reader_for_index W repo index).
Proof.
  unfold all_or_nothing, git_reader_for_tree, git_reader_for_workdir,
    git_reader_for_index.
  cbn.
  destruct (git__calloc W sizeof_tree_reader),
    (git__calloc W sizeof_workdir_reader),
    (git__calloc W sizeof_index_reader),
    validate_index, index as [index|],
    (git_repository_index__weakptr W repo) as [i|e];
    cbn; unfold errno; repeat split; lia.
Qed.

(** X2: when the repository cannot give its staging table, the workdir
    constructor asked to validate and the index constructor given no
    table both return the repository's error, produce no reader, and
    release the storage they had just allocated. *)
Theorem constructors_release_on_failure (W : collaborators)
    (repo : git_repository) (e : positive) :
  git__calloc W sizeof_workdir_reader = true ->
  git__calloc W sizeof_index_reader = true ->
  git_repository_index__weakptr W repo = Err e ->
  value (git_reader_for_workdir W repo true) = (errno e, None) /\
  flat_map released (calls (git_reader_for_workdir W repo true))
  = [unfinished_storage sizeof_workdir_reader] /\
  value (git_reader_for_index W repo None) = (errno e, None) /\
  flat_map released (calls (git_reader_for_index W repo None))
  = [unfinished_storage sizeof_index_reader].
Proof.
  intros Hw Hi Hweak.
  unfold git_reader_for_workdir, git_reader_for_index. cbn.
  rewrite Hw, Hi. cbn. rewrite Hweak. cbn. auto.
Qed.

Lemma constructors_release_on_failure_witness :
  value (git_reader_for_workdir (Sample.faulty true false true true)
           Sample.repo true) = (-1, None) /\
  flat_map released
    (calls (git_reader_for_workdir (Sample.faulty true false true true)
              Sample.repo true))
  = [unfinished_storage sizeof_workdir_reader] /\
  value (git_reader_for_index (Sample.faulty true false true true)
           Sample.repo None) = (-1, None) /\
  flat_map released
    (calls (git_reader_for_index (Sample.faulty true false true true)
              Sample.repo None))
  = [unfinished_storage sizeof_index_reader].
Proof.
  apply (constructors_release_on_failure (Sample.faulty true false true true)
           Sample.repo 1%positive);
    reflexivity.
Defined.

(** X3: an index reader built on a staging table supplied by the
    caller is bound to that table and the repository is never asked for
    its own, so the construction succeeds even when the repository has
    none to give; built without a table, it is the reader built on the
    repository's own. *)
Theorem git_reader_for_index_binding (W : collaborators)
    (repo : git_repository) (index : git_index) :
  git__calloc W sizeof_index_reader = true ->
  git_reader_for_index W repo (Some index)
  = (0, Some (IndexReader {| index_repo := repo; index_index := index |}),
     [call_git__calloc sizeof_index_reader]) /\
  (forall own,
      git_repository_index__weakptr W repo = Ok own ->
      value (git_reader_for_index W repo None)
      = value (git_reader_for_index W repo (Some own))).
Proof.
  intros Hcalloc.
  unfold git_reader_for_index. cbn.
  rewrite Hcalloc. cbn. split; [reflexivity |].
  intros own Hweak. rewrite Hweak. reflexivity.
Qed.

Lemma git_reader_for_index_binding_witness :
  git_repository_index__weakptr (Sample.faulty true false true true)
    Sample.repo = Err 1 /\
  git_reader_for_index (Sample.faulty true false true true) Sample.repo
    (Some 21%nat)
  = (0, Some (IndexReader {| index_repo := Sample.repo;
                             index_index := 21%nat |}),
     [call_git__calloc sizeof_index_reader]) /\
  value (git_reader_for_index (Sample.world true) Sample.repo None)
  = value (git_reader_for_index (Sample.world true) Sample.repo
             (Some Sample.I)).
Proof.
  split; [reflexivity |]. split.
  - exact (proj1 (git_reader_for_index_binding
                    (Sample.faulty true false true true) Sample.repo
                    21%nat eq_refl)).
  - exact (proj2 (git_reader_for_index_binding (Sample.world true)
                    Sample.repo 21%nat eq_refl) Sample.I eq_refl).
Defined.

(** ** Resources of a read *)

(** The releases and the acquisitions of each reader, outcome by
    outcome. *)
Lemma tree_reader_read_released (W : collaborators) (out : git_buf)
    (out_id : option git_oid) (r : tree_reader) (filename : string) :
  let cs := calls (tree_reader_read W out out_id r filename) in
  match git_tree_entry_bypath W (tree r) filename with
  | Err _ =>
      flat_map released cs = [blob_object NULL; tree_entry_object NULL] /\
      flat_map (acquired W) cs = []
  | Ok e =>
      match git_blob_lookup W (git_tree_owner W (tree r))
              (git_tree_entry_id e) with
      | Err _ =>
          flat_map released cs
          = [blob_object NULL; tree_entry_object (Ref e)] /\
          flat_map (acquired W) cs = [tree_entry_object (Ref e)]
      | Ok b =>
          flat_map released cs
          = [blob_object (Ref b); tree_entry_object (Ref e)] /\
          flat_map (acquired W) cs
          = [tree_entry_object (Ref e); blob_object (Ref b)]
      end
  end.
Proof.
  unfold tree_reader_read. cbn.
  destruct (git_tree_entry_bypath W (tree r) filename) as [e|c] eqn:He;
    cbn; rewrite ?He; cbn; [| auto].
  destruct (git_blob_lookup W _ _) as [b|c] eqn:Hb; cbn;
    rewrite ?He, ?Hb; cbn; auto.
Qed.

Lemma workdir_reader_read_released (W : collaborators) (out : git_buf)
    (out_id : option git_oid) (r : workdir_reader) (filename : string) :
  let cs := calls (workdir_reader_read W out out_id r filename) in
  match git_buf_joinpath W (git_repository_workdir W (workdir_repo r))
          filename with
  | Err _ =>
      flat_map released cs = [filter_list_object None; path_buffer None] /\
      flat_map (acquired W) cs = []
  | Ok path =>
      match git_filter_list_load W (workdir_repo r) filename with
      | Err _ =>
          flat_map released cs
          = [filter_list_object None; path_buffer (Some path)] /\
          flat_map (acquired W) cs = [path_buffer (Some path)]
      | Ok filters =>
          flat_map released cs
          = [filter_list_object filters; path_buffer (Some path)] /\
          flat_map (acquired W) cs
          = path_buffer (Some path) ::
            match filters with
            | Some _ => [filter_list_object filters]
            | None => []
            end
      end
  end.
Proof.
  unfold workdir_reader_read, workdir_reader_mismatch. cbn.
  destruct (git_buf_joinpath W _ filename) as [path|c] eqn:Hj; cbn;
    rewrite ?Hj; cbn; [| auto].
  destruct (git_filter_list_load W _ filename) as [filters|c] eqn:Hl;
    cbn; rewrite ?Hj, ?Hl; cbn; [| auto].
  assert (Hacq :
    match filters with
    | Some filters0 => [filter_list_object (Some filters0)]
    | None => []
    end
    = match filters with
      | Some _ => [filter_list_object filters]
      | None => []
      end) by (destruct filters; reflexivity).
  destruct (git_filter_list_apply_to_file W out filters _ path)
    as [[u|c] o']; cbn; rewrite ?Hj, ?Hl; cbn;
    [| rewrite app_nil_r, Hacq; auto].
  destruct (is_set out_id || is_set (workdir_index r)); cbn.
  - destruct (git_odb_hash W _ _) as [id|c]; cbn; rewrite ?Hj, ?Hl; cbn;
      [| rewrite app_nil_r, Hacq; auto].
    destruct (workdir_index r) as [index|]; cbn; rewrite ?Hj, ?Hl; cbn;
      [| rewrite app_nil_r, Hacq; auto].
    destruct (git_index_get_bypath W index filename 0) as [entry|]; cbn;
      rewrite ?Hj, ?Hl; cbn; [| rewrite app_nil_r, Hacq; auto].
    destruct (git_oid_equal id _); cbn; rewrite ?Hj, ?Hl; cbn;
      rewrite app_nil_r, Hacq; auto.
  - destruct (workdir_index r) as [index|]; cbn; rewrite ?Hj, ?Hl; cbn;
      [| rewrite app_nil_r, Hacq; auto].
    destruct (git_index_get_bypath W index filename 0) as [entry|]; cbn;
      rewrite ?Hj, ?Hl; cbn; [| rewrite app_nil_r, Hacq; auto].
    destruct (git_oid_equal _ _); cbn; rewrite ?Hj, ?Hl; cbn;
      rewrite app_nil_r, Hacq; auto.
Qed.

Lemma index_reader_read_released (W : collaborators) (out : git_buf)
    (out_id : option git_oid) (r : index_reader) (filename : string) :
  let cs := calls (index_reader_read W out out_id r filename) in
  match git_index_get_bypath W (index_index r) filename 0 with
  | None => flat_map released cs = [] /\ flat_map (acquired W) cs = []
  | Some entry =>
      match git_blob_lookup W (index_repo r) (git_index_entry.id entry) with
      | Err _ =>
          flat_map released cs = [blob_object Uninitialized] /\
          flat_map (acquired W) cs = []
      | Ok b =>
          flat_map released cs = [blob_object (Ref b)] /\
          flat_map (acquired W) cs = [blob_object (Ref b)]
      end
  end.
Proof.
  unfold index_reader_read. cbn.
  destruct (git_index_get_bypath W _ filename 0) as [entry|]; cbn; [| auto].
  destruct (git_blob_lookup W _ _) as [b|c] eqn:Hb; cbn; rewrite ?Hb; cbn.
  - unfold git_blob__getbuf.
    destruct (git_buf_set W out (git_blob_rawcontent b)); cbn.
    rewrite Hb. auto.
  - auto.
Qed.

(** X4: whatever the collaborators answer, a read releases every
    object it acquired (tree entry, blob, joined path, filter list).  A
    pointer that nothing has set is handed to a release function exactly
    when an index read finds the entry and the lookup of its blob fails.
    On every other path the pointers released that designate something
    are exactly the objects the read acquired, each once, in the reverse
    order of their acquisition. *)
Theorem read_releases_what_it_acquires (W : collaborators) (out : git_buf)
    (out_id : option git_oid) (reader : git_reader) (filename : string) :
  let cs := calls (git_reader_read W out out_id reader filename) in
  (In (blob_object Uninitialized) (flat_map released cs) <->
   exists r entry c,
     reader = IndexReader r /\
     git_index_get_bypath W (index_index r) filename 0 = Some entry /\
     git_blob_lookup W (index_repo r) (git_index_entry.id entry) = Err c) /\
  (~ In (blob_object Uninitialized) (flat_map released cs) ->
   filter designates (flat_map released cs)
   = rev (flat_map (acquired W) cs)) /\
  (forall o, In o (flat_map (acquired W) cs) ->
             In o (flat_map released cs)).
Proof.
  destruct reader as [r|r|r]; cbn.
  - pose proof (tree_reader_read_released W out out_id r filename) as H.
    cbn in H.
    destruct (git_tree_entry_bypath W (tree r) filename) as [e|c];
      [destruct (git_blob_lookup W _ _) as [b|c] |];
      destruct H as [-> ->]; cbn;
      (split; [split;
               [intros [H | [H | []]]; discriminate
               | intros [r' [entry [c' [H _]]]]; discriminate] |]);
      (split; [reflexivity | intuition auto]).
  - pose proof (workdir_reader_read_released W out out_id r filename) as H.
    cbn in H.
    destruct (git_buf_joinpath W _ filename) as [path|c];
      [destruct (git_filter_list_load W _ filename) as [[f|]|c] |];
      destruct H as [-> ->]; cbn;
      (split; [split;
               [intros [H | [H | []]]; discriminate
               | intros [r' [entry [c' [H _]]]]; discriminate] |]);
      (split; [reflexivity | intuition auto]).
  - pose proof (index_reader_read_released W out out_id r filename) as H.
    cbn in H.
    destruct (git_index_get_bypath W _ filename 0) as [entry|] eqn:He;
      [destruct (git_blob_lookup W _ _) as [b|c] eqn:Hb |];
      destruct H as [-> ->]; cbn.
    + split; [split;
              [intros [H | []]; discriminate
              | intros [r' [entry' [c' [H [He' Hb']]]]];
                inversion H; subst r'; congruence] |].
      split; [reflexivity | intuition auto].
    + split; [split;
              [intros _; exists r, entry, c; auto | auto] |].
      split; [intros H; exfalso; apply H; auto | intros o []].
    + split; [split;
              [intros []
              | intros [r' [entry' [c' [H [He' Hb']]]]];
                inversion H; subst r'; congruence] |].
      split; [reflexivity | intros o []].
Qed.

(** ** Failing lookups *)

(** X5: when the entry is found and the object store has no blob for
    it, a tree read and an index read return the store's error and leave
    both the buffer and the identity output as they were.  The tree read
    still releases its tree entry; the index read hands its local
    [blob], which nothing has set, to [git_blob_free]. *)
Theorem read_blob_lookup_failure (W : collaborators) (out : git_buf)
    (out_id : option git_oid) (treader : tree_reader)
    (ireader : index_reader) (p q : string) (te : git_tree_entry)
    (ie : git_index_entry.t) (c d : positive) :
  git_tree_entry_bypath W (tree treader) p = Ok te ->
  git_blob_lookup W (git_tree_owner W (tree treader)) (git_tree_entry_id te)
  = Err c ->
  git_index_get_bypath W (index_index ireader) q 0 = Some ie ->
  git_blob_lookup W (index_repo ireader) (git_index_entry.id ie) = Err d ->
  value (git_reader_read W out out_id (TreeReader treader) p)
  = (errno c, out, out_id) /\
  flat_map released
    (calls (git_reader_read W out out_id (TreeReader treader) p))
  = [blob_object NULL; tree_entry_object (Ref te)] /\
  value (git_reader_read W out out_id (IndexReader ireader) q)
  = (errno d, out, out_id) /\
  flat_map released
    (calls (git_reader_read W out out_id (IndexReader ireader) q))
  = [blob_object Uninitialized].
Proof.
  intros Hte Htb Hie Hib.
  unfold git_reader_read, tree_reader_read, index_reader_read. cbn.
  rewrite Hte, Hie. cbn. rewrite Htb, Hib. cbn. auto.
Qed.

Lemma read_blob_lookup_failure_witness :
  value (git_reader_read (Sample.faulty true true true false) GIT_BUF_INIT
           Sample.some_id Sample.tree_reader_T "a.txt")
  = (GIT_ENOTFOUND, GIT_BUF_INIT, Sample.some_id) /\
  flat_map released
    (calls (git_reader_read (Sample.faulty true true true false)
              GIT_BUF_INIT Sample.some_id Sample.tree_reader_T "a.txt"))
  = [blob_object NULL;
     tree_entry_object
       (Ref {| git_tree_entry_id := Sample.hash (Sample.bytes "hello") |})] /\
  value (git_reader_read (Sample.faulty true true true false) GIT_BUF_INIT
           Sample.some_id Sample.index_reader_I "b.txt")
  = (GIT_ENOTFOUND, GIT_BUF_INIT, Sample.some_id) /\
  flat_map released
    (calls (git_reader_read (Sample.faulty true true true false)
              GIT_BUF_INIT Sample.some_id Sample.index_reader_I "b.txt"))
  = [blob_object Uninitialized].
Proof.
  apply (read_blob_lookup_failure (Sample.faulty true true true false)
           GIT_BUF_INIT Sample.some_id {| tree := Sample.T |}
           {| index_repo := Sample.repo; index_index := Sample.I |}
           "a.txt" "b.txt"
           {| git_tree_entry_id := Sample.hash (Sample.bytes "hello") |}
           {| git_index_entry.path := "b.txt";
              git_index_entry.id := Sample.hash (Sample.bytes "world") |}
           3%positive 3%positive);
    reflexivity.
Defined.

(** ** Outcomes of a workdir read *)

(** X6: a workdir read that returns 0 has joined the path, loaded the
    filters and filtered the file into the buffer it returns.  If a
    staging table is bound, the path is staged and its staged identity is
    the hash of the returned bytes; if an identity output was passed, it
    holds the hash of the returned bytes, and it stays null otherwise. *)
Theorem workdir_read_success_sound (W : collaborators) (out out' : git_buf)
    (out_id oid : option git_oid) (reader : workdir_reader)
    (filename : string) :
  value (git_reader_read W out out_id (WorkdirReader reader) filename)
  = (0, out', oid) ->
  (exists path filters,
      git_buf_joinpath W (git_repository_workdir W (workdir_repo reader))
        filename = Ok path /\
      git_filter_list_load W (workdir_repo reader) filename = Ok filters /\
      git_filter_list_apply_to_file W out filters (workdir_repo reader) path
      = (Ok tt, out')) /\
  (forall index, workdir_index reader = Some index ->
     exists e, git_index_get_bypath W index filename 0 = Some e /\
               git_odb_hash W (git_buf_bytes out') GIT_OBJ_BLOB
               = Ok (git_index_entry.id e)) /\
  (forall old, out_id = Some old ->
     exists id, git_odb_hash W (git_buf_bytes out') GIT_OBJ_BLOB = Ok id /\
                oid = Some id) /\
  (out_id = None -> oid = None).
Proof.
  unfold git_reader_read, workdir_reader_read, workdir_reader_mismatch. cbn.
  destruct (git_buf_joinpath W _ filename) as [path|c]; cbn;
    [| intros H; inversion H].
  destruct (git_filter_list_load W _ filename) as [filters|c]; cbn;
    [| intros H; inversion H].
  destruct (git_filter_list_apply_to_file W out filters _ path)
    as [[[]|c] o'] eqn:Happly; cbn; [| intros H; inversion H].
  destruct (workdir_index reader) as [index|]; cbn.
  - rewrite orb_true_r. cbn.
    destruct (git_odb_hash W _ _) as [id|c] eqn:Hhash; cbn;
      [| intros H; inversion H].
    destruct (git_index_get_bypath W index filename 0) as [e|] eqn:He; cbn;
      [| intros H; inversion H].
    destruct (git_oid_equal id (git_index_entry.id e)) eqn:Heq; cbn;
      [| intros H; inversion H].
    apply git_oid_equal_true in Heq.
    intros H. inversion H. subst o' oid. clear H.
    split; [exists path, filters; auto |].
    split.
    { intros index' Hindex. inversion Hindex. subst index'.
      exists e. split; [assumption | congruence]. }
    split.
    { intros old ->. exists id. auto. }
    intros ->. reflexivity.
  - rewrite orb_false_r.
    destruct out_id as [old|]; cbn.
    + destruct (git_odb_hash W _ _) as [id|c] eqn:Hhash; cbn;
        [| intros H; inversion H].
      intros H. inversion H. subst o' oid. clear H.
      split; [exists path, filters; auto |].
      split; [discriminate |].
      split; [| discriminate].
      intros old' _. exists id. auto.
    + intros H. inversion H. subst o' oid. clear H.
      split; [exists path, filters; auto |].
      split; [discriminate |].
      split; [discriminate | reflexivity].
Qed.

Lemma workdir_read_success_sound_witness :
  (exists path filters,
      git_buf_joinpath (Sample.world true)
        (git_repository_workdir (Sample.world true) Sample.repo) "b.txt"
      = Ok path /\
      git_filter_list_load (Sample.world true) Sample.repo "b.txt"
      = Ok filters /\
      git_filter_list_apply_to_file (Sample.world true) GIT_BUF_INIT
        filters Sample.repo path
      = (Ok tt, Buf (Sample.bytes "world"))) /\
  (forall index, Some Sample.I = Some index ->
     exists e, git_index_get_bypath (Sample.world true) index "b.txt" 0
               = Some e /\
               git_odb_hash (Sample.world true) (Sample.bytes "world")
                 GIT_OBJ_BLOB
               = Ok (git_index_entry.id e)) /\
  (forall old, Sample.some_id = Some old ->
     exists id, git_odb_hash (Sample.world true) (Sample.bytes "world")
                  GIT_OBJ_BLOB = Ok id /\
                Some (Sample.hash (Sample.bytes "world")) = Some id) /\
  (Sample.some_id = None ->
   Some (Sample.hash (Sample.bytes "world")) = None).
Proof.
  apply (workdir_read_success_sound (Sample.world true) GIT_BUF_INIT
           (Buf (Sample.bytes "world")) Sample.some_id
           (Some (Sample.hash (Sample.bytes "world")))
           {| workdir_repo := Sample.repo; workdir_index := Some Sample.I |}
           "b.txt").
  reflexivity.
Defined.

(** X7: only a workdir reader with a staging table bound returns
    [GIT_READER_MISMATCH], and only after it has hashed the content it
    leaves in the buffer: the path is then unstaged, or staged under
    another identity than that hash.  The identity output is not
    written. *)
Theorem mismatch_only_from_validation (W : collaborators) (out : git_buf)
    (out_id : option git_oid) (reader : git_reader) (filename : string) :
  read_error (value (git_reader_read W out out_id reader filename))
  = GIT_READER_MISMATCH ->
  let r := value (git_reader_read W out out_id reader filename) in
  exists wr index id,
    reader = WorkdirReader wr /\
    workdir_index wr = Some index /\
    git_odb_hash W (git_buf_bytes (read_out r)) GIT_OBJ_BLOB = Ok id /\
    match git_index_get_bypath W index filename 0 with
    | None => True
    | Some e => id <> git_index_entry.id e
    end /\
    read_out_id r = out_id.
Proof.
  destruct reader as [r|r|r]; cbn.
  - unfold tree_reader_read. cbn.
    destruct (git_tree_entry_bypath W (tree r) filename) as [e|c]; cbn;
      [| discriminate].
    destruct (git_blob_lookup W _ _) as [b|c]; cbn; [| discriminate].
    destruct (git_buf_oom _); discriminate.
  - unfold workdir_reader_read, workdir_reader_mismatch. cbn.
    destruct (git_buf_joinpath W _ filename) as [path|c]; cbn;
      [| discriminate].
    destruct (git_filter_list_load W _ filename) as [filters|c]; cbn;
      [| discriminate].
    destruct (git_filter_list_apply_to_file W out filters _ path)
      as [[u|c] o']; cbn; [| discriminate].
    destruct (workdir_index r) as [index|] eqn:Hindex; cbn.
    + rewrite orb_true_r. cbn.
      destruct (git_odb_hash W _ _) as [id|c] eqn:Hhash; cbn;
        [| discriminate].
      destruct (git_index_get_bypath W index filename 0) as [e|] eqn:He;
        cbn.
      * destruct (git_oid_equal id (git_index_entry.id e)) eqn:Heq; cbn;
          [discriminate |].
        apply git_oid_equal_false in Heq.
        intros _. exists r, index, id. rewrite He. auto.
      * intros _. exists r, index, id. rewrite He. auto.
    + rewrite orb_false_r.
      destruct out_id as [old|]; cbn; [| discriminate].
      destruct (git_odb_hash W _ _); discriminate.
  - unfold index_reader_read. cbn.
    destruct (git_index_get_bypath W _ filename 0) as [entry|]; cbn;
      [| discriminate].
    destruct (git_blob_lookup W _ _) as [b|c]; cbn; [| discriminate].
    unfold git_blob__getbuf, git_buf_set.
    destruct (git_blob_rawcontent b); cbn; [discriminate |].
    destruct out; cbn; [| discriminate].
    destruct (git_buf_try_grow W _ _); discriminate.
Qed.

Lemma mismatch_only_from_validation_witness :
  let r := value (git_reader_read (Sample.world true) GIT_BUF_INIT
                    Sample.some_id Sample.workdir_reader_validating
                    "a.txt") in
  exists wr index id,
    Sample.workdir_reader_validating = WorkdirReader wr /\
    workdir_index wr = Some index /\
    git_odb_hash (Sample.world true) (git_buf_bytes (read_out r))
      GIT_OBJ_BLOB = Ok id /\
    match git_index_get_bypath (Sample.world true) index "a.txt" 0 with
    | None => True
    | Some e => id <> git_index_entry.id e
    end /\
    read_out_id r = Sample.some_id.
Proof.
  apply (mismatch_only_from_validation (Sample.world true) GIT_BUF_INIT
           Sample.some_id Sample.workdir_reader_validating "a.txt").
  reflexivity.
Defined.

(** X8: when the filter pipeline fails on the working file (for
    instance because the file is missing), a workdir read returns the
    pipeline's error whether or not a staging table is bound; it computes
    no hash, does not consult the staging table, leaves the identity
    output alone and still releases the filter list and the path. *)
Theorem workdir_read_filter_failure (W : collaborators) (out out' : git_buf)
    (out_id : option git_oid) (reader : workdir_reader)
    (filename path : string) (filters : option git_filter_list)
    (e : positive) :
  git_buf_joinpath W (git_repository_workdir W (workdir_repo reader))
    filename = Ok path ->
  git_filter_list_load W (workdir_repo reader) filename = Ok filters ->
  git_filter_list_apply_to_file W out filters (workdir_repo reader) path
  = (Err e, out') ->
  let m := git_reader_read W out out_id (WorkdirReader reader) filename in
  value m = (errno e, out', out_id) /\
  filter is_git_odb_hash (calls m) = [] /\
  filter is_staging_access (calls m) = [] /\
  flat_map released (calls m)
  = [filter_list_object filters; path_buffer (Some path)].
Proof.
  intros Hjoin Hload Happly.
  unfold git_reader_read, workdir_reader_read. cbn.
  rewrite Hjoin. cbn. rewrite Hload. cbn. rewrite Happly. cbn. auto.
Qed.

Lemma workdir_read_filter_failure_witness :
  let m := git_reader_read (Sample.world true) GIT_BUF_INIT Sample.some_id
             Sample.workdir_reader_validating "missing.txt" in
  value m = (GIT_ENOTFOUND, GIT_BUF_INIT, Sample.some_id) /\
  filter is_git_odb_hash (calls m) = [] /\
  filter is_staging_access (calls m) = [] /\
  flat_map released (calls m)
  = [filter_list_object (Some 1%nat);
     path_buffer (Some "/repo/missing.txt")].
Proof.
  apply (workdir_read_filter_failure (Sample.world true) GIT_BUF_INIT
           GIT_BUF_INIT Sample.some_id
           {| workdir_repo := Sample.repo; workdir_index := Some Sample.I |}
           "missing.txt" "/repo/missing.txt" (Some 1%nat) 3%positive);
    reflexivity.
Defined.

(** X9: when the hash of the filtered content fails, a workdir read
    that needed it returns the hash's error with the filtered content in
    the buffer; it does not go on to the staging table and does not write
    the identity output. *)
Theorem workdir_read_hash_failure (W : collaborators) (out out' : git_buf)
    (out_id : option git_oid) (reader : workdir_reader)
    (filename path : string) (filters : option git_filter_list)
    (e : positive) :
  git_buf_joinpath W (git_repository_workdir W (workdir_repo reader))
    filename = Ok path ->
  git_filter_list_load W (workdir_repo reader) filename = Ok filters ->
  git_filter_list_apply_to_file W out filters (workdir_repo reader) path
  = (Ok tt, out') ->
  is_set out_id || is_set (workdir_index reader) = true ->
  git_odb_hash W (git_buf_bytes out') GIT_OBJ_BLOB = Err e ->
  let m := git_reader_read W out out_id (WorkdirReader reader) filename in
  value m = (errno e, out', out_id) /\
  filter is_staging_access (calls m) = [].
Proof.
  intros Hjoin Hload Happly Hneed Hhash.
  unfold git_reader_read, workdir_reader_read. cbn.
  rewrite Hjoin. cbn. rewrite Hload. cbn. rewrite Happly. cbn.
  rewrite Hneed. cbn. rewrite Hhash. cbn. auto.
Qed.

Lemma workdir_read_hash_failure_witness :
  let m := git_reader_read (Sample.faulty false true true true)
             GIT_BUF_INIT None Sample.workdir_reader_validating "b.txt" in
  value m = (-1, Buf (Sample.bytes "world"), None) /\
  filter is_staging_access (calls m) = [].
Proof.
  apply (workdir_read_hash_failure (Sample.faulty false true true true)
           GIT_BUF_INIT (Buf (Sample.bytes "world")) None
           {| workdir_repo := Sample.repo; workdir_index := Some Sample.I |}
           "b.txt" "/repo/b.txt" (Some 1%nat) 1%positive);
    reflexivity.
Defined.

(** ** What a read depends on *)

(** X10: a tree read and an index read are determined by the tree
    lookup, the staging lookup, the object store and the growth of the
    buffer: with those unchanged, the working directory, the filters and
    the hash can answer anything without changing the result or the
    calls made. *)
Theorem stored_reads_ignore_workdir (W1 W2 : collaborators) (out : git_buf)
    (out_id : option git_oid) (reader : git_reader) (filename : string) :
  (forall r, reader <> WorkdirReader r) ->
  (forall t f, git_tree_entry_bypath W1 t f = git_tree_entry_bypath W2 t f) ->
  (forall t, git_tree_owner W1 t = git_tree_owner W2 t) ->
  (forall r oid, git_blob_lookup W1 r oid = git_blob_lookup W2 r oid) ->
  (forall b n, git_buf_try_grow W1 b n = git_buf_try_grow W2 b n) ->
  (forall i f s,
      git_index_get_bypath W1 i f s = git_index_get_bypath W2 i f s) ->
  git_reader_read W1 out out_id reader filename
  = git_reader_read W2 out out_id reader filename.
Proof.
  intros Hkind Htree Howner Hblob Hgrow Hindex.
  destruct reader as [r|r|r]; cbn.
  - unfold tree_reader_read, git_buf_put.
    rewrite Htree, Howner.
    destruct (git_tree_entry_bypath W2 (tree r) filename) as [e|c]; cbn;
      [| reflexivity].
    rewrite Hblob.
    destruct (git_blob_lookup W2 _ _) as [b|c]; cbn; [| reflexivity].
    destruct (git_buf_clear out); [rewrite Hgrow |]; reflexivity.
  - exfalso. exact (Hkind r eq_refl).
  - unfold index_reader_read, git_blob__getbuf, git_buf_set.
    rewrite Hindex.
    destruct (git_index_get_bypath W2 _ filename 0) as [entry|]; cbn;
      [| reflexivity].
    rewrite Hblob.
    destruct (git_blob_lookup W2 _ _) as [b|c]; cbn; [| reflexivity].
    destruct (git_blob_rawcontent b); [reflexivity |].
    destruct out; [rewrite Hgrow |]; reflexivity.
Qed.

Lemma stored_reads_ignore_workdir_witness :
  git_reader_read (Sample.world true) GIT_BUF_INIT Sample.some_id
    Sample.tree_reader_T "a.txt"
  = git_reader_read (Sample.faulty false false false true) GIT_BUF_INIT
      Sample.some_id Sample.tree_reader_T "a.txt".
Proof.
  apply (stored_reads_ignore_workdir (Sample.world true)
           (Sample.faulty false false false true) GIT_BUF_INIT
           Sample.some_id Sample.tree_reader_T "a.txt");
    first [discriminate | reflexivity].
Defined.

(** X11: a workdir reader without a staging table is determined by
    the working directory, the path join, the filters and the hash: the
    staging table, the tree and the object store can answer anything
    without changing the result or the calls made. *)
Theorem plain_workdir_read_ignores_stores (W1 W2 : collaborators)
    (out : git_buf) (out_id : option git_oid) (repo : git_repository)
    (filename : string) :
  (forall r, git_repository_workdir W1 r = git_repository_workdir W2 r) ->
  (forall a b, git_buf_joinpath W1 a b = git_buf_joinpath W2 a b) ->
  (forall r f, git_filter_list_load W1 r f = git_filter_list_load W2 r f) ->
  (forall o fl r p,
      git_filter_list_apply_to_file W1 o fl r p
      = git_filter_list_apply_to_file W2 o fl r p) ->
  (forall d t, git_odb_hash W1 d t = git_odb_hash W2 d t) ->
  let reader :=
    WorkdirReader {| workdir_repo := repo; workdir_index := None |} in
  git_reader_read W1 out out_id reader filename
  = git_reader_read W2 out out_id reader filename.
Proof.
  intros Hroot Hjoin Hload Happly Hhash.
  cbn. unfold workdir_reader_read, workdir_reader_mismatch. cbn.
  rewrite Hroot, Hjoin.
  destruct (git_buf_joinpath W2 _ filename) as [path|c]; cbn;
    [| reflexivity].
  rewrite Hload.
  destruct (git_filter_list_load W2 repo filename) as [filters|c]; cbn;
    [| reflexivity].
  rewrite Happly.
  destruct (git_filter_list_apply_to_file W2 out filters repo path)
    as [[u|c] o']; cbn; [| reflexivity].
  rewrite Hhash. reflexivity.
Qed.

Lemma plain_workdir_read_ignores_stores_witness :
  git_reader_read (Sample.world true) GIT_BUF_INIT Sample.some_id
    Sample.workdir_reader_plain "c.txt"
  = git_reader_read (Sample.faulty true false true false) GIT_BUF_INIT
      Sample.some_id Sample.workdir_reader_plain "c.txt".
Proof.
  apply (plain_workdir_read_ignores_stores (Sample.world true)
           (Sample.faulty true false true false) GIT_BUF_INIT
           Sample.some_id Sample.repo "c.txt");
    reflexivity.
Defined.

(** X12: for a tree reader, an index reader and a workdir reader with
    a staging table bound, asking for the identity changes neither the
    return code nor the content: a read with a null identity output
    returns what the read with an identity output returns, and makes the
    same calls. *)
Theorem read_outcome_ignores_out_id (W : collaborators) (out : git_buf)
    (old : git_oid) (reader : git_reader) (filename : string) :
  (forall r, reader = WorkdirReader r -> workdir_index r <> None) ->
  let m0 := git_reader_read W out None reader filename in
  let m1 := git_reader_read W out (Some old) reader filename in
  read_error (value m0) = read_error (value m1) /\
  read_out (value m0) = read_out (value m1) /\
  read_out_id (value m0) = None /\
  calls m0 = calls m1.
Proof.
  intros Hbound.
  destruct reader as [r|r|r]; cbn.
  - unfold tree_reader_read. cbn.
    destruct (git_tree_entry_bypath W (tree r) filename) as [e|c]; cbn;
      [| auto].
    destruct (git_blob_lookup W _ _) as [b|c]; cbn; auto.
  - unfold workdir_reader_read, workdir_reader_mismatch. cbn.
    destruct (workdir_index r) as [index|] eqn:Hindex;
      [| exfalso; exact (Hbound r eq_refl Hindex)].
    destruct (git_buf_joinpath W _ filename) as [path|c]; cbn; [| auto].
    destruct (git_filter_list_load W _ filename) as [filters|c]; cbn;
      [| auto].
    destruct (git_filter_list_apply_to_file W out filters _ path)
      as [[u|c] o']; cbn; [| auto].
    destruct (git_odb_hash W _ _) as [id|c]; cbn; [| auto].
    destruct (git_index_get_bypath W index filename 0) as [e|]; cbn;
      [| auto].
    destruct (git_oid_equal id _); cbn; auto.
  - unfold index_reader_read. cbn.
    destruct (git_index_get_bypath W _ filename 0) as [entry|]; cbn;
      [| auto].
    destruct (git_blob_lookup W _ _) as [b|c]; cbn; [| auto].
    destruct (git_blob__getbuf W out b); cbn. auto.
Qed.

Lemma read_outcome_ignores_out_id_witness :
  let m0 := git_reader_read (Sample.world true) GIT_BUF_INIT None
              Sample.workdir_reader_validating "b.txt" in
  let m1 := git_reader_read (Sample.world true) GIT_BUF_INIT
              (Some [x00; x00]) Sample.workdir_reader_validating "b.txt" in
  read_error (value m0) = read_error (value m1) /\
  read_out (value m0) = read_out (value m1) /\
  read_out_id (value m0) = None /\
  calls m0 = calls m1.
Proof.
  apply (read_outcome_ignores_out_id (Sample.world true) GIT_BUF_INIT
           [x00; x00] Sample.workdir_reader_validating "b.txt").
  intros r H. inversion H. discriminate.
Defined.

(** ** Validation and return codes *)

(** X13: binding a staging table to a workdir reader never changes
    the content it produces.  The buffer after a read is the same with or
    without the table; when the validating read returns 0 the plain read
    returns the same result, and when the plain read fails the validating
    read fails in the same way. *)
Theorem validation_only_rejects (W : collaborators) (out : git_buf)
    (out_id : option git_oid) (repo : git_repository) (index : git_index)
    (filename : string) :
  let plain :=
    value (git_reader_read W out out_id
             (WorkdirReader {| workdir_repo := repo;
                               workdir_index := None |}) filename) in
  let validating :=
    value (git_reader_read W out out_id
             (WorkdirReader {| workdir_repo := repo;
                               workdir_index := Some index |}) filename) in
  read_out validating = read_out plain /\
  (read_error validating = 0 -> validating = plain) /\
  (read_error plain <> 0 -> validating = plain).
Proof.
  cbn. unfold workdir_reader_read, workdir_reader_mismatch. cbn.
  destruct (git_buf_joinpath W _ filename) as [path|c]; cbn; [| auto].
  destruct (git_filter_list_load W repo filename) as [filters|c]; cbn;
    [| auto].
  destruct (git_filter_list_apply_to_file W out filters repo path)
    as [[u|c] o']; cbn; [| auto].
  rewrite orb_true_r, orb_false_r.
  destruct out_id as [old|]; cbn.
  - destruct (git_odb_hash W _ _) as [id|c]; cbn; [| auto].
    destruct (git_index_get_bypath W index filename 0) as [e|]; cbn.
    + destruct (git_oid_equal id _); cbn.
      * auto.
      * repeat split; [discriminate | congruence].
    + repeat split; [discriminate | congruence].
  - destruct (git_odb_hash W _ _) as [id|c]; cbn.
    + destruct (git_index_get_bypath W index filename 0) as [e|]; cbn.
      * destruct (git_oid_equal id _); cbn.
        -- auto.
        -- repeat split; [discriminate | congruence].
      * repeat split; [discriminate | congruence].
    + repeat split; [| congruence].
      intros H. exfalso. exact (errno_nonzero c H).
Qed.

(** X14: whatever the collaborators answer, a read returns 0, a
    negative code, or [GIT_READER_MISMATCH]. *)
Theorem read_return_codes (W : collaborators) (out : git_buf)
    (out_id : option git_oid) (reader : git_reader) (filename : string) :
  let error :=
    read_error (value (git_reader_read W out out_id reader filename)) in
  error = 0 \/ error < 0 \/ error = GIT_READER_MISMATCH.
Proof.
  assert (Hneg : forall c, errno c < 0) by (intros c; unfold errno; lia).
  destruct reader as [r|r|r]; cbn.
  - unfold tree_reader_read. cbn.
    destruct (git_tree_entry_bypath W (tree r) filename) as [e|c]; cbn;
      [| auto].
    destruct (git_blob_lookup W _ _) as [b|c]; cbn; [| auto].
    destruct (git_buf_oom _); [right; left; lia | auto].
  - unfold workdir_reader_read, workdir_reader_mismatch. cbn.
    destruct (git_buf_joinpath W _ filename) as [path|c]; cbn; [| auto].
    destruct (git_filter_list_load W _ filename) as [filters|c]; cbn;
      [| auto].
    destruct (git_filter_list_apply_to_file W out filters _ path)
      as [[u|c] o']; cbn; [| auto].
    destruct (is_set out_id || is_set (workdir_index r)); cbn;
      [destruct (git_odb_hash W _ _) as [id|c]; cbn; [| auto] |];
      (destruct (workdir_index r) as [index|]; cbn; [| auto]);
      (destruct (git_index_get_bypath W index filename 0) as [e|]; cbn;
       [| auto]);
      destruct (git_oid_equal _ _); cbn; auto.
  - unfold index_reader_read. cbn.
    destruct (git_index_get_bypath W _ filename 0) as [entry|]; cbn;
      [| right; left; unfold GIT_ENOTFOUND; lia].
    destruct (git_blob_lookup W _ _) as [b|c]; cbn; [| auto].
    unfold git_blob__getbuf, git_buf_set.
    destruct (git_blob_rawcontent b); cbn; [auto |].
    destruct out; cbn; [| right; left; lia].
    destruct (git_buf_try_grow W _ _); cbn; [auto | right; left; lia].
Qed.
